(** * SkyCast: flight-delay data collection and two-stage training

    A shallow embedding of [data_collection.py] (class
    [FlightDataCollector]) and [train.py] (class [EnhancedDelayPredictor]),
    with the properties of the design document proved over it.

    Conventions of the embedding.
    - JSON documents and Python scalars are the inductive type [value].
    - A binary64 number is represented by the rational it denotes and
      arithmetic on it is exact ([Q]); the rounding of the hardware is not
      modelled.
    - A raised exception is the [Raise] case of [result]; the methods of
      the collector are functions in the state-and-exception monad [M].
    - The outside world (the two HTTP services, the clock) is an abstract
      state type with an oracle per operation; every HTTP exchange is
      recorded in a trace so that calls can be counted.
    - [print] writes nothing the program reads back and is left out. *)

From Stdlib Require Import ZArith QArith String List Lia.
From stdpp Require Import gmap strings pretty.

Local Open Scope Z_scope.

(** ** Python values *)

#[warnings="-register-all"] Inductive value : Type :=
| VNone
| VBool (b : bool)
| VInt (z : Z)
| VFloat (q : Q)
| VStr (s : string)
| VList (l : list value)
| VDict (d : list (string * value)).

(** The exception classes that the modelled code can meet.  Every one of
    them derives from [Exception]. *)
Inductive exn : Type :=
| KeyError
| IndexError
| TypeError
| AttributeError
| ValueError
| OverflowError
| RequestError.

Inductive result (A : Type) : Type :=
| Ok (a : A)
| Raise (e : exn).
Arguments Ok {A} a.
Arguments Raise {A} e.

(** Sequencing of steps that may raise. *)
Definition and_then {A B} (r : result A) (k : A -> result B) : result B :=
  match r with
  | Ok a => k a
  | Raise e => Raise e
  end.

Notation "'let+' x ':=' r 'in' k" := (and_then r (fun x => k))
  (at level 10, x name, r at level 100, k at level 200).

(** [bool(v)]: Python truthiness. *)
Definition truthy (v : value) : bool :=
  match v with
  | VNone => false
  | VBool b => b
  | VInt z => negb (z =? 0)
  | VFloat q => negb (Qnum q =? 0)
  | VStr s => match s with EmptyString => false | String _ _ => true end
  | VList l => match l with [] => false | _ => true end
  | VDict d => match d with [] => false | _ => true end
  end.

(** Lookup in a JSON object, kept as the list of its members. *)
Fixpoint assoc (k : string) (d : list (string * value)) : option value :=
  match d with
  | [] => None
  | (k', v) :: d' => if String.eqb k k' then Some v else assoc k d'
  end.

(** [v[k]] for a string key [k]. *)
Definition subscript (v : value) (k : string) : result value :=
  match v with
  | VDict d => match assoc k d with Some x => Ok x | None => Raise KeyError end
  | _ => Raise TypeError
  end.

(** [v[0]]. *)
Definition subscript0 (v : value) : result value :=
  match v with
  | VList l => match l with x :: _ => Ok x | [] => Raise IndexError end
  | VStr s =>
      match s with
      | String c _ => Ok (VStr (String c EmptyString))
      | EmptyString => Raise IndexError
      end
  | VDict _ => Raise KeyError
  | _ => Raise TypeError
  end.

(** [v.get(k, default)]: only a dict has the method. *)
Definition get_default (v : value) (k : string) (default : value) : result value :=
  match v with
  | VDict d => Ok (match assoc k d with Some x => x | None => default end)
  | _ => Raise AttributeError
  end.

(** [v.get(k)], whose default is [None]. *)
Definition get (v : value) (k : string) : result value :=
  get_default v k VNone.

(** The number a value stands for in arithmetic; [bool] is a subclass of
    [int]. *)
Definition as_number (v : value) : option Q :=
  match v with
  | VBool b => Some (inject_Z (if b then 1 else 0))
  | VInt z => Some (inject_Z z)
  | VFloat q => Some q
  | _ => None
  end.

(** [a - b]. *)
Definition py_sub (a b : value) : result Q :=
  match as_number a, as_number b with
  | Some x, Some y => Ok (x - y)%Q
  | _, _ => Raise TypeError
  end.

(** ** Dates and times

    A naive [datetime] is its number of microseconds since
    1970-01-01T00:00:00 on the wall clock it was read from. *)

Definition datetime := Z.

Definition MIN_DATETIME : Z := -62135596800 * 1000000.
Definition MAX_DATETIME : Z := 253402300799 * 1000000 + 999999.

(** Rounding of a rational to the nearest integer, ties to even. *)
Definition round_half_even (q : Q) : Z :=
  let n := Qnum q in
  let d := Z.pos (Qden q) in
  let f := n / d in
  let r := n mod d in
  match 2 * r ?= d with
  | Lt => f
  | Gt => f + 1
  | Eq => if Z.even f then f else f + 1
  end.

(** [timedelta / 2]: the quotient in microseconds, ties to even. *)
Definition timedelta_half (us : Z) : Z :=
  let q := us / 2 in
  let r := us mod 2 in
  if (r =? 1) && Z.odd q then q + 1 else q.

(** [t1 + (t2 - t1) / 2] on datetimes. *)
Definition midtime (t1 t2 : datetime) : datetime :=
  t1 + timedelta_half (t2 - t1).

(** Civil date of a day number (days since 1970-01-01). *)
Definition civil_from_days (days : Z) : Z * Z * Z :=
  let z := days + 719468 in
  let era := z / 146097 in
  let doe := z - era * 146097 in
  let yoe := (doe - doe / 1460 + doe / 36524 - doe / 146096) / 365 in
  let doy := doe - (365 * yoe + yoe / 4 - yoe / 100) in
  let mp := (5 * doy + 2) / 153 in
  let d := doy - (153 * mp + 2) / 5 + 1 in
  let m := if mp <? 10 then mp + 3 else mp - 9 in
  let y := yoe + era * 400 + (if m <=? 2 then 1 else 0) in
  (y, m, d).

(** [t.date()], as a day number. *)
Definition date (t : datetime) : Z := t / 86400000000.

Definition pad2 (n : Z) : string :=
  if n <? 10 then "0" +:+ pretty n else pretty n.

Definition pad4 (n : Z) : string :=
  if n <? 10 then "000" +:+ pretty n
  else if n <? 100 then "00" +:+ pretty n
  else if n <? 1000 then "0" +:+ pretty n
  else pretty n.

(** [str(d)] for a date: ISO format. *)
Definition isoformat (day : Z) : string :=
  let '(y, m, d) := civil_from_days day in
  pad4 y +:+ "-" +:+ pad2 m +:+ "-" +:+ pad2 d.

(** ** The records of the pipeline *)

(** Modelled from the spec: the module [airports] that defines
    [INDIAN_AIRPORTS] is not among the sources; the design document gives
    the registry as an immutable mapping from airport code to latitude
    and longitude.  This is one entry of it; the registry itself is a
    parameter of the development. *)
Record airport : Type := { lat : Q; lon : Q }.

(** The dict returned by [_get_midpoint]. *)
Record midpoint : Type := { mid_lat : Q; mid_lon : Q }.

(** The dict returned by [process_flight], one row of the dataset. *)
Record EnrichedFlightRecord : Type := {
  flight_number : value;
  airline : value;
  origin : value;
  destination : string;
  scheduled_departure : datetime;
  actual_departure : datetime;
  scheduled_arrival : datetime;
  actual_arrival : datetime;
  delay_minutes : Q;
  aircraft : value;
  route_weather : value;
  route_weather_desc : value;
  route_temp : value;
  route_wind : value
}.

(** An HTTP GET, as [requests.get(url, params=..., headers=...)]. *)
Record request : Type := {
  url : string;
  params : list (string * value);
  headers : list (string * string)
}.

(** The attributes that [__init__] sets on a [FlightDataCollector]. *)
Record FlightDataCollector : Type := {
  flightaware_base : string;
  flightaware_headers : list (string * string);
  weather_api : string;
  weather_cache : gmap string value
}.

Definition __init__ (flightaware_key weather_key : string) : FlightDataCollector :=
  {| flightaware_base := "https://flightxml.flightaware.com/json/FlightXML3/";
     flightaware_headers := [("x-apikey"%string, flightaware_key)];
     weather_api := weather_key;
     weather_cache := ∅ |}.

Definition set_weather_cache (c : gmap string value) (o : FlightDataCollector)
  : FlightDataCollector :=
  {| flightaware_base := flightaware_base o;
     flightaware_headers := flightaware_headers o;
     weather_api := weather_api o;
     weather_cache := c |}.

Definition WEATHER_URL : string :=
  "https://api.openweathermap.org/data/3.0/onecall/timemachine".

(** [int(x)] on a float truncates toward zero. *)
Definition py_int (q : Q) : Z := Z.quot (Qnum q) (Z.pos (Qden q)).

(** ** The collector *)

(** The outside world and the platform the collector runs on. *)
Class Platform : Type := {
  world : Type;
  (** [requests.get(...)] followed by [.json()] on the response: the
      decoded body, or the exception either step raised. *)
  http_get : request -> world -> result value * world;
  (** [datetime.now()]. *)
  clock : world -> datetime * world;
  (** [time.sleep(seconds)]. *)
  sleep : Z -> world -> world;
  (** Offset of local time from UTC, in seconds, at a given epoch second. *)
  utcoffset : Z -> Z;
  (** [t.timestamp()] of a naive datetime, read as local time. *)
  timestamp : datetime -> result Q;
  (** [repr] of a float, a list or a dict. *)
  py_repr : value -> string;
  (** The static registry, in iteration order. *)
  INDIAN_AIRPORTS : list (string * airport)
}.

Section Collector.

Context `{Platform}.

(** The collector object, the world it talks to, and two records kept
    for the proofs: every HTTP exchange made so far, oldest first, and
    every dataset written to the sink. *)
Record state : Type := {
  self : FlightDataCollector;
  env : world;
  trace : list (request * result value);
  sink : list (string * list EnrichedFlightRecord)
}.

Definition M (A : Type) : Type := state -> result A * state.

Definition ret {A} (a : A) : M A := fun st => (Ok a, st).

Definition bind {A B} (m : M A) (k : A -> M B) : M B :=
  fun st =>
    match m st with
    | (Ok a, st') => k a st'
    | (Raise e, st') => (Raise e, st')
    end.

Definition lift {A} (r : result A) : M A := fun st => (r, st).

(** [try: body except Exception as e: handler]. *)
Definition try_except {A} (body : M A) (handler : exn -> M A) : M A :=
  fun st =>
    match body st with
    | (Ok a, st') => (Ok a, st')
    | (Raise e, st') => handler e st'
    end.

Notation "'let*' x ':=' m 'in' k" := (bind m (fun x => k))
  (at level 10, x name, m at level 100, k at level 200).

(** [requests.get(url, params, headers).json()], recorded in the trace. *)
Definition requests_get (req : request) : M value :=
  fun st =>
    let '(r, w) := http_get req (env st) in
    (r, {| self := self st; env := w;
           trace := trace st ++ [(req, r)]; sink := sink st |}).

Definition now : M datetime :=
  fun st =>
    let '(t, w) := clock (env st) in
    (Ok t, {| self := self st; env := w; trace := trace st; sink := sink st |}).

Definition time_sleep (seconds : Z) : M unit :=
  fun st =>
    (Ok tt, {| self := self st; env := sleep seconds (env st);
               trace := trace st; sink := sink st |}).

Definition cache_store (k : string) (v : value) : M unit :=
  fun st =>
    (Ok tt, {| self := set_weather_cache (<[k := v]> (weather_cache (self st))) (self st);
               env := env st; trace := trace st; sink := sink st |}).

(** [str(v)], as an f-string formats a value. *)
Definition py_str (v : value) : string :=
  match v with
  | VNone => "None"
  | VBool true => "True"
  | VBool false => "False"
  | VInt z => pretty z
  | VStr s => s
  | _ => py_repr v
  end.

(** [datetime.fromtimestamp(t)]: the local wall-clock time of an epoch
    time, rounded to the microsecond; years outside 1..9999 raise. *)
Definition fromtimestamp (t : value) : result datetime :=
  match as_number t with
  | None => Raise TypeError
  | Some q =>
      let us := round_half_even (q * 1000000) in
      let local := us + utcoffset (us / 1000000) * 1000000 in
      if (MIN_DATETIME <=? local) && (local <=? MAX_DATETIME)
      then Ok local else Raise ValueError
  end.

(** [INDIAN_AIRPORTS.get(code, {})]: [None] stands for the empty dict of
    the default; a list or a dict is not hashable. *)
Definition registry_get (code : value) : result (option airport) :=
  match code with
  | VList _ | VDict _ => Raise TypeError
  | VStr s => Ok (snd <$> List.find (fun e => String.eqb s (fst e)) INDIAN_AIRPORTS)
  | _ => Ok None
  end.

(** [entry.get('lat', 0)] and [entry.get('lon', 0)]. *)
Definition get_lat (entry : option airport) : Q :=
  match entry with Some a => lat a | None => 0 end.
Definition get_lon (entry : option airport) : Q :=
  match entry with Some a => lon a | None => 0 end.

Definition _get_midpoint (origin_icao dest_icao : value) : result midpoint :=
  let+ origin := registry_get origin_icao in
  let+ dest := registry_get dest_icao in
  Ok {| mid_lat := (get_lat origin + get_lat dest) / 2;
        mid_lon := (get_lon origin + get_lon dest) / 2 |}.

Definition cache_key (origin destination : value) (flight_time : datetime) : string :=
  py_str origin +:+ "-" +:+ py_str destination +:+ "-" +:+ isoformat (date flight_time).

(** The request that [get_route_weather] sends; [_get_midpoint] is
    called once for each coordinate. *)
Definition weather_request (m1 m2 : midpoint) (ts : Q) (o : FlightDataCollector)
  : request :=
  {| url := WEATHER_URL;
     params := [("lat"%string, VFloat (mid_lat m1));
                ("lon"%string, VFloat (mid_lon m2));
                ("dt"%string, VInt (py_int ts));
                ("appid"%string, VStr (weather_api o));
                ("units"%string, VStr "metric")];
     headers := [] |}.

(** The body of the [try] of [get_route_weather]. *)
Definition fetch_weather (cache_key : string) (origin destination : value)
    (flight_time : datetime) : M value :=
  let* m1 := lift (_get_midpoint origin destination) in
  let* m2 := lift (_get_midpoint origin destination) in
  let* ts := lift (timestamp flight_time) in
  let* weather_data := (fun st => requests_get (weather_request m1 m2 ts (self st)) st) in
  let* _ := cache_store cache_key weather_data in
  ret weather_data.

Definition get_route_weather (origin destination : value) (flight_time : datetime)
  : M value :=
  fun st =>
    let cache_key := cache_key origin destination flight_time in
    match weather_cache (self st) !! cache_key with
    | Some cached => (Ok cached, st)
    | None =>
        try_except (fetch_weather cache_key origin destination flight_time)
          (fun _ => ret VNone) st
    end.

Definition get_flight_details (flight_id : value) : M value :=
  try_except
    (let* response := (fun st => requests_get
       {| url := flightaware_base (self st) +:+ "FlightInfoStatus";
          params := [("ident"%string, flight_id);
                     ("include_ex_data"%string, VInt 1)];
          headers := flightaware_headers (self st) |} st) in
     lift (get_default response "FlightInfoStatusResult" (VDict [])))
    (fun _ => ret VNone).

(** [w['current']['weather'][0][k] if w else 'Unknown'] *)
Definition weather_condition (w : value) (k : string) : result value :=
  if truthy w then
    let+ current := subscript w "current" in
    let+ conditions := subscript current "weather" in
    let+ first := subscript0 conditions in
    subscript first k
  else Ok (VStr "Unknown").

(** [w['current'][k] if w else None] *)
Definition weather_reading (w : value) (k : string) : result value :=
  if truthy w then
    let+ current := subscript w "current" in
    subscript current k
  else Ok VNone.

(** The dict display that [process_flight] returns, its values
    evaluated from top to bottom. *)
Definition assemble (flight : value) (airport_icao : string) (details : value)
    (departure_time : datetime) (weather : value) : result EnrichedFlightRecord :=
  let+ r_flight_number := subscript flight "ident" in
  let+ r_airline := get_default flight "operator" (VStr "Unknown") in
  let+ r_origin := get details "origin" in
  let+ actual_dep := get_default details "actualdeparturetime" (VInt 0) in
  let+ r_actual_departure := fromtimestamp actual_dep in
  let+ estimated := subscript flight "estimatedarrivaltime" in
  let+ r_scheduled_arrival := fromtimestamp estimated in
  let+ actual := subscript flight "actualarrivaltime" in
  let+ r_actual_arrival := fromtimestamp actual in
  let+ a := subscript flight "actualarrivaltime" in
  let+ e := subscript flight "estimatedarrivaltime" in
  let+ diff := py_sub a e in
  let+ r_aircraft := get_default flight "aircrafttype" (VStr "Unknown") in
  let+ r_route_weather := weather_condition weather "main" in
  let+ r_route_weather_desc := weather_condition weather "description" in
  let+ r_route_temp := weather_reading weather "temp" in
  let+ r_route_wind := weather_reading weather "wind_speed" in
  Ok {| flight_number := r_flight_number;
        airline := r_airline;
        origin := r_origin;
        destination := airport_icao;
        scheduled_departure := departure_time;
        actual_departure := r_actual_departure;
        scheduled_arrival := r_scheduled_arrival;
        actual_arrival := r_actual_arrival;
        delay_minutes := diff / 60;
        aircraft := r_aircraft;
        route_weather := r_route_weather;
        route_weather_desc := r_route_weather_desc;
        route_temp := r_route_temp;
        route_wind := r_route_wind |}.

Definition process_flight (flight : value) (airport_icao : string)
  : M (option EnrichedFlightRecord) :=
  try_except
    (let* ident := lift (subscript flight "ident") in
     let* details := get_flight_details ident in
     if negb (truthy details) then ret None else
     let* filed := lift (get_default details "filed_departuretime" (VInt 0)) in
     let* departure_time := lift (fromtimestamp filed) in
     let* actual := lift (subscript flight "actualarrivaltime") in
     let* arrival_time := lift (fromtimestamp actual) in
     let* from := lift (get details "origin") in
     let* weather := get_route_weather from (VStr airport_icao)
                       (midtime departure_time arrival_time) in
     let* record := lift (assemble flight airport_icao details departure_time weather) in
     ret (Some record))
    (fun _ =>
       (* the message of the handler evaluates [flight.get('ident')] *)
       let* _ := lift (get flight "ident") in
       ret None).

(** The values a [for] loop draws from an object. *)
Definition py_iter (v : value) : result (list value) :=
  match v with
  | VList l => Ok l
  | VDict d => Ok (map (fun e => VStr (fst e)) d)
  | VStr s => Ok (map (fun c => VStr (String c EmptyString)) (list_ascii_of_string s))
  | _ => Raise TypeError
  end.

(** The loop [for flight in flights] of [collect_data].  The list
    [all_flights] is mutated in place, so what was appended before an
    exception stays appended: the loop returns the list together with
    the way it ended. *)
Fixpoint for_flights (flights : list value) (icao : string)
    (all_flights : list EnrichedFlightRecord) (st : state)
  : list EnrichedFlightRecord * result unit * state :=
  match flights with
  | [] => (all_flights, Ok tt, st)
  | flight :: rest =>
      match process_flight flight icao st with
      | (Ok (Some processed), st') =>
          for_flights rest icao (all_flights ++ [processed]) st'
      | (Ok None, st') => for_flights rest icao all_flights st'
      | (Raise e, st') => (all_flights, Raise e, st')
      end
  end.

(** [datetime.now() - timedelta(hours=hours)] *)
Definition hours_ago (t : datetime) (hours : Z) : result datetime :=
  let t' := t - hours * 3600000000 in
  if (MIN_DATETIME <=? t') && (t' <=? MAX_DATETIME)
  then Ok t' else Raise OverflowError.

(** The request for the arrivals board of one airport. *)
Definition board_request (icao : string) (hours : Z) : M request :=
  let* t1 := now in
  let* from := lift (hours_ago t1 hours) in
  let* startTime := lift (timestamp from) in
  let* t2 := now in
  let* endTime := lift (timestamp t2) in
  fun st =>
    ret {| url := flightaware_base (self st) +:+ "AirportBoards";
           params := [("airport"%string, VStr icao);
                      ("howMany"%string, VInt 10);
                      ("startTime"%string, VInt (py_int startTime));
                      ("endTime"%string, VInt (py_int endTime))];
           headers := flightaware_headers (self st) |} st.

(** The statements of the [try] of [collect_data] that come before the
    loop over the flights. *)
Definition fetch_board (icao : string) (hours : Z) : M (list value) :=
  let* req := board_request icao hours in
  let* response := requests_get req in
  let* result := lift (get_default response "AirportBoardsResult" (VDict [])) in
  let* arrivals := lift (get_default result "arrivals" (VDict [])) in
  let* flights := lift (get_default arrivals "flights" (VList [])) in
  lift (py_iter flights).

(** One iteration of [for icao in INDIAN_AIRPORTS], with its
    [try ... except Exception: continue]. *)
Definition collect_airport (icao : string) (hours : Z)
    (all_flights : list EnrichedFlightRecord) (st : state)
  : list EnrichedFlightRecord * state :=
  match fetch_board icao hours st with
  | (Raise _, st1) => (all_flights, st1)
  | (Ok flights, st1) =>
      match for_flights flights icao all_flights st1 with
      | (all_flights', Ok _, st2) => (all_flights', snd (time_sleep 2 st2))
      | (all_flights', Raise _, st2) => (all_flights', st2)
      end
  end.

Fixpoint for_airports (airports : list string) (hours : Z)
    (all_flights : list EnrichedFlightRecord) (st : state)
  : list EnrichedFlightRecord * state :=
  match airports with
  | [] => (all_flights, st)
  | icao :: rest =>
      let '(all_flights', st') := collect_airport icao hours all_flights st in
      for_airports rest hours all_flights' st'
  end.

(** [pd.DataFrame(all_flights).to_excel(filename, index=False)]; the
    sink is taken to accept every dataset. *)
Definition to_excel (filename : string) (df : list EnrichedFlightRecord) (st : state)
  : state :=
  {| self := self st; env := env st; trace := trace st;
     sink := sink st ++ [(filename, df)] |}.

Definition collect_data (hours : Z) (filename : string) (st : state)
  : list EnrichedFlightRecord * state :=
  let '(all_flights, st') :=
    for_airports (map fst INDIAN_AIRPORTS) hours [] st in
  (all_flights, to_excel filename all_flights st').

(** A fresh collector in a given world. *)
Definition initial (flightaware_key weather_key : string) (w : world) : state :=
  {| self := __init__ flightaware_key weather_key; env := w;
     trace := []; sink := [] |}.

End Collector.

(** ** Training *)

(** One row of the frame that [__init__] reads from the dataset.  A float
    cell may be empty (NaN), which is [None]. *)
Record DataRow : Type := {
  row_airline : value;
  row_origin : value;
  row_aircraft : value;
  row_route_weather : value;
  row_scheduled_departure : datetime;
  row_actual_departure : datetime;
  row_scheduled_arrival : datetime;
  row_delay_minutes : option Q;
  row_route_temp : option Q;
  row_route_wind : option Q
}.

(** The columns of [features], in the order of the list in
    [train_models]. *)
Record FeatureVector : Type := {
  f_airline : Z;
  f_origin : Z;
  f_departure_hour : Z;
  f_departure_day : Z;
  f_departure_month : Z;
  f_flight_duration : Q;
  f_route_weather : Z;
  f_route_temp : option Q;
  f_route_wind : option Q;
  f_departure_delay : Q
}.

(** A row of the frame after [preprocess_data]: the feature columns and
    the two target columns. *)
Record FrameRow : Type := {
  features : FeatureVector;
  aircraft_code : Z;
  arrival_delay : option Q;
  is_delayed : Z
}.

(** [(t2 - t1).dt.total_seconds() / 60] *)
Definition minutes_between (t1 t2 : datetime) : Q :=
  ((t2 - t1) # 1000000) / 60.

(** [(delay > 15).astype(int)]; a comparison with NaN is false. *)
Definition delayed_flag (delay : option Q) : Z :=
  match delay with
  | Some d => if Qle_bool d 15 then 0 else 1
  | None => 0
  end.

Definition dt_hour (t : datetime) : Z := (t mod 86400000000) / 3600000000.
(** Monday is 0; 1970-01-01 was a Thursday. *)
Definition dt_dayofweek (t : datetime) : Z := (date t + 3) mod 7.
Definition dt_month (t : datetime) : Z := snd (fst (civil_from_days (date t))).

(** The calls made on the two estimators, in order. *)
Inductive sk_call : Type :=
| ClfFit (X : list FeatureVector) (y : list Z)
| ClfPredict (X : list FeatureVector)
| RegFit (X : list FeatureVector) (y : list (option Q))
| RegPredict (X : list FeatureVector).

(** scikit-learn, as far as the trainer uses it. *)
Class Sklearn : Type := {
  Classifier : Type;
  Regressor : Type;
  (** [LabelEncoder().fit_transform(column)]. *)
  fit_transform : list string -> list Z;
  (** [str(cell)] of a categorical cell. *)
  cell_str : value -> string;
  (** [train_test_split(..., test_size=0.2, random_state=42)] on [n]
      samples: the positions drawn for the train and the test part, or
      the error raised when a part would be empty. *)
  train_test_split : nat -> result (list nat * list nat);
  (** [RandomForestClassifier(...).fit] and [RandomForestRegressor(...).fit];
      the scores that [train_models] prints are left out. *)
  clf_fit : list FeatureVector -> list Z -> Classifier;
  reg_fit : list FeatureVector -> list (option Q) -> Regressor;
  (** The class the fitted classifier gives one vector (1 is delayed) and
      the estimate the fitted regressor gives it. *)
  classify : Classifier -> FeatureVector -> Z;
  regress : Regressor -> FeatureVector -> Q
}.

Section Training.

Context `{Sklearn}.

(** [frame.iloc[positions]] *)
Definition iloc {A} (positions : list nat) (frame : list A) : list A :=
  omap (fun i => frame !! i) positions.

(** The encoded column of a categorical field. *)
Definition encode (column : list value) : list Z :=
  fit_transform (map cell_str column).

Definition code_at (codes : list Z) (i : nat) : Z := default 0 (codes !! i).

Definition preprocess_data (df : list DataRow) : list FrameRow :=
  let airline := encode (map row_airline df) in
  let origin := encode (map row_origin df) in
  let aircraft := encode (map row_aircraft df) in
  let weather := encode (map row_route_weather df) in
  imap (fun i r =>
    {| features :=
         {| f_airline := code_at airline i;
            f_origin := code_at origin i;
            f_departure_hour := dt_hour (row_scheduled_departure r);
            f_departure_day := dt_dayofweek (row_scheduled_departure r);
            f_departure_month := dt_month (row_scheduled_departure r);
            f_flight_duration :=
              minutes_between (row_scheduled_departure r) (row_scheduled_arrival r);
            f_route_weather := code_at weather i;
            f_route_temp := row_route_temp r;
            f_route_wind := row_route_wind r;
            f_departure_delay :=
              minutes_between (row_scheduled_departure r) (row_actual_departure r) |};
       aircraft_code := code_at aircraft i;
       arrival_delay := row_delay_minutes r;
       is_delayed := delayed_flag (row_delay_minutes r) |}) df.

(** What [train_models] leaves behind: the two fitted estimators, and
    the calls it made on them. *)
Record Trained : Type := {
  clf : Classifier;
  reg : Regressor;
  calls : list sk_call
}.

Definition train_models (df : list FrameRow) : result Trained :=
  let X := map features df in
  let y_class := map is_delayed df in
  match train_test_split (length X) with
  | Raise e => Raise e
  | Ok (train, test) =>
      let the_clf := clf_fit (iloc train X) (iloc train y_class) in
      let delayed := filter (fun r => is_delayed r = 1) df in
      let X_reg := map features delayed in
      let y_reg := map arrival_delay delayed in
      match train_test_split (length X_reg) with
      | Raise e => Raise e
      | Ok (train', test') =>
          let the_reg := reg_fit (iloc train' X_reg) (iloc train' y_reg) in
          Ok {| clf := the_clf;
                reg := the_reg;
                calls := [ClfFit (iloc train X) (iloc train y_class);
                          ClfPredict (iloc test X);
                          RegFit (iloc train' X_reg) (iloc train' y_reg);
                          RegPredict (iloc test' X_reg)] |}
      end
  end.

End Training.

(** ** The combined prediction *)

Record Prediction : Type := {
  predicted_delayed : bool;
  estimated_delay_minutes : option Q
}.

(** How often a list of calls invokes the regressor's [predict]. *)
Definition regressor_invocations (cs : list sk_call) : nat :=
  length (List.filter (fun c => match c with RegPredict _ => true | _ => false end) cs).

Section TwoStage.

Context `{Sklearn}.

(** Modelled from the spec: the combined [predict] operation of the
    two-stage model is not among the sources ([train.py] fits and saves
    the two estimators and never composes them).  The design document
    gives it as: run the classifier; if it predicts not delayed, return
    a null estimate; otherwise run the regressor and return its
    estimate.  The second component lists the estimator calls made. *)
Definition predict (the_clf : Classifier) (the_reg : Regressor) (x : FeatureVector)
  : Prediction * list sk_call :=
  if classify the_clf x =? 1
  then ({| predicted_delayed := true;
           estimated_delay_minutes := Some (regress the_reg x) |},
        [ClfPredict [x]; RegPredict [x]])
  else ({| predicted_delayed := false; estimated_delay_minutes := None |},
        [ClfPredict [x]]).

End TwoStage.

(** ** Vocabulary of the statements *)

Section Vocabulary.

Context `{Platform}.

(** Every value in the weather cache is the body of a response that the
    weather service sent. *)
Definition cache_from_responses (st : state) : Prop :=
  forall k v,
    weather_cache (self st) !! k = Some v ->
    exists req, url req = WEATHER_URL /\ In (req, Ok v) (trace st).

(** The second of two consecutive lookups returns what the first one
    returned and sends no request. *)
Definition second_lookup_hits (origin destination : value) (t1 t2 : datetime)
    (st : state) : Prop :=
  let '(r1, st1) := get_route_weather origin destination t1 st in
  let '(r2, st2) := get_route_weather origin destination t2 st1 in
  r2 = r1 /\ trace st2 = trace st1.

(** [st'] is a later state of the run than [st], short of writing the
    dataset: the cache has only grown, the trace has only been
    extended, cached values still come from responses if they did, and
    the sink is untouched. *)
Definition evolves (st st' : state) : Prop :=
  weather_cache (self st) ⊆ weather_cache (self st')
  /\ trace st `prefix_of` trace st'
  /\ (cache_from_responses st -> cache_from_responses st')
  /\ sink st' = sink st.

(** A computation that only moves the run forward. *)
Definition steady {A} (m : M A) : Prop :=
  forall st, evolves st (snd (m st)).

(** A record that [process_flight] returned for a flight of the board
    of [icao]. *)
Definition produced_for (icao : string) (r : EnrichedFlightRecord) : Prop :=
  destination r = icao
  /\ exists flight (s s' : state), process_flight flight icao s = (Ok (Some r), s').

(** The coordinates that a code stands for: those of its registry
    entry, or the origin of the map when the code has none. *)
Definition located (code : string) (c : airport) : Prop :=
  In (code, c) INDIAN_AIRPORTS
  \/ (~ In code (map fst INDIAN_AIRPORTS) /\ c = {| lat := 0; lon := 0 |}).

End Vocabulary.

(** A record with its four weather fields set to what [process_flight]
    writes when it has no observation. *)
Definition without_weather (r : EnrichedFlightRecord) : EnrichedFlightRecord :=
  {| flight_number := flight_number r;
     airline := airline r;
     origin := origin r;
     destination := destination r;
     scheduled_departure := scheduled_departure r;
     actual_departure := actual_departure r;
     scheduled_arrival := scheduled_arrival r;
     actual_arrival := actual_arrival r;
     delay_minutes := delay_minutes r;
     aircraft := aircraft r;
     route_weather := VStr "Unknown";
     route_weather_desc := VStr "Unknown";
     route_temp := VNone;
     route_wind := VNone |}.

Definition is_dict (v : value) : bool :=
  match v with VDict _ => true | _ => false end.

(** ** A small concrete world

    Used to run the model: the HTTP services answer from a script, one
    entry per request, and fail once the script is exhausted; the clock
    stands still; local time is UTC+05:30. *)
Module Demo.

Definition script : Type := list (result value).

Definition answer (_ : request) (w : script) : result value * script :=
  match w with
  | r :: w' => (r, w')
  | [] => (Raise RequestError, [])
  end.

Definition registry : list (string * airport) :=
  [("VIDP"%string, {| lat := 285665 # 10000; lon := 771031 # 10000 |});
   ("VABB"%string, {| lat := 190887 # 10000; lon := 728679 # 10000 |})].

Definition platform : Platform :=
  {| world := script;
     http_get := answer;
     clock := fun w => (1700019800000000, w);
     sleep := fun _ w => w;
     utcoffset := fun _ => 19800;
     timestamp := fun t => Ok ((t - 19800000000) # 1000000);
     py_repr := fun _ => "<repr>"%string;
     INDIAN_AIRPORTS := registry |}.

Definition start (w : script) : @state platform :=
  @initial platform "fa-key" "ow-key" w.

(** A board entry and the documents the services return for it. *)
Definition flight : value :=
  VDict [("ident"%string, VStr "AI101");
         ("operator"%string, VStr "AIC");
         ("aircrafttype"%string, VStr "A320");
         ("estimatedarrivaltime"%string, VInt 3000);
         ("actualarrivaltime"%string, VInt 3600)].

Definition details (fields : list (string * value)) : value :=
  VDict [("FlightInfoStatusResult"%string, VDict fields)].

Definition weather : value :=
  VDict [("current"%string,
          VDict [("temp"%string, VFloat (31 # 1));
                 ("wind_speed"%string, VFloat (7 # 2));
                 ("weather"%string,
                  VList [VDict [("main"%string, VStr "Clouds");
                                ("description"%string, VStr "scattered clouds")]])])].

Definition board (flights : list value) : value :=
  VDict [("AirportBoardsResult"%string,
          VDict [("arrivals"%string, VDict [("flights"%string, VList flights)])])].

Definition route_details_fields : list (string * value) :=
  [("origin"%string, VStr "VABB");
   ("filed_departuretime"%string, VInt 1000);
   ("actualdeparturetime"%string, VInt 1200)].

Definition route_details : value := details route_details_fields.

(** The record that [flight] gives with [route_details] and [weather]. *)
Definition expected : EnrichedFlightRecord :=
  {| flight_number := VStr "AI101";
     airline := VStr "AIC";
     origin := VStr "VABB";
     destination := "VIDP";
     scheduled_departure := 20800000000;
     actual_departure := 21000000000;
     scheduled_arrival := 22800000000;
     actual_arrival := 23400000000;
     delay_minutes := 600 # 60;
     aircraft := VStr "A320";
     route_weather := VStr "Clouds";
     route_weather_desc := VStr "scattered clouds";
     route_temp := VFloat (31 # 1);
     route_wind := VFloat (7 # 2) |}.

(** A stand-in for scikit-learn: the encoder numbers the cells by
    position, the split keeps the first sample for the test part, the
    estimators remember their training targets, the classifier calls a
    flight delayed when it left more than 15 minutes late, and the
    regressor answers with the departure delay. *)
Definition sklearn : Sklearn :=
  {| Classifier := list Z;
     Regressor := list (option Q);
     fit_transform := fun column => map Z.of_nat (seq 0 (length column));
     cell_str := fun _ => "cell"%string;
     train_test_split := fun n =>
       match n with
       | O | S O => Raise ValueError
       | S (S m) => Ok (seq 1 (S m), [O])
       end;
     clf_fit := fun _ y => y;
     reg_fit := fun _ y => y;
     classify := fun _ x => if Qle_bool (f_departure_delay x) 15 then 0 else 1;
     regress := fun _ x => f_departure_delay x |}.

Definition row (delay : Q) : DataRow :=
  {| row_airline := VStr "AIC";
     row_origin := VStr "VABB";
     row_aircraft := VStr "A320";
     row_route_weather := VStr "Clouds";
     row_scheduled_departure := 1700019800000000;
     row_actual_departure := 1700020400000000;
     row_scheduled_arrival := 1700027000000000;
     row_delay_minutes := Some delay;
     row_route_temp := Some (31 # 1);
     row_route_wind := None |}.

Definition dataset : list DataRow := [row 20; row 5; row 30; row 15; row 45].

Definition vector (departure_delay : Q) : FeatureVector :=
  {| f_airline := 0;
     f_origin := 0;
     f_departure_hour := 9;
     f_departure_day := 2;
     f_departure_month := 11;
     f_flight_duration := 120;
     f_route_weather := 0;
     f_route_temp := Some (31 # 1);
     f_route_wind := None;
     f_departure_delay := departure_delay |}.

End Demo.

(** ** Further vocabulary *)

(** A value that can be the key of a dict. *)
Definition hashable (v : value) : bool :=
  match v with
  | VList _ | VDict _ => false
  | _ => true
  end.

Section Requests.

Context `{Platform}.

(** The request that [get_flight_details] sends. *)
Definition details_request (flight_id : value) (o : FlightDataCollector) : request :=
  {| url := flightaware_base o +:+ "FlightInfoStatus";
     params := [("ident"%string, flight_id); ("include_ex_data"%string, VInt 1)];
     headers := flightaware_headers o |}.

(** What [get_flight_details] makes of the outcome of its request. *)
Definition details_of (r : result value) : value :=
  match r with
  | Ok (VDict d) => default (VDict []) (assoc "FlightInfoStatusResult" d)
  | _ => VNone
  end.

(** The entries that [collect_data] draws from the body of a board
    response: the three [.get] of its assignment to [flights], and the
    iteration of the [for] loop. *)
Definition board_flights (response : value) : result (list value) :=
  let+ result := get_default response "AirportBoardsResult" (VDict []) in
  let+ arrivals := get_default result "arrivals" (VDict []) in
  let+ flights := get_default arrivals "flights" (VList []) in
  py_iter flights.

(** A computation that sends at most [n] requests, and records each. *)
Definition sends_at_most {A} (n : nat) (m : M A) : Prop :=
  forall st, exists new,
    trace (snd (m st)) = trace st ++ new /\ (length new <= n)%nat.

End Requests.

(** ** Runs of the orchestrator *)

Section Runs.

Context `{Platform}.

(** The loop over the entries of a board, told entry by entry: started
    in a state, it keeps the record of every entry for which
    [process_flight] returns one, in the order of the board, skips the
    entries for which it returns [None], and stops at the first entry
    for which it raises. *)
Inductive board_run (icao : string)
  : list value -> state -> list EnrichedFlightRecord -> result unit -> state -> Prop :=
| board_done st :
    board_run icao [] st [] (Ok tt) st
| board_keep flight rest st r st1 records res st2 :
    process_flight flight icao st = (Ok (Some r), st1) ->
    board_run icao rest st1 records res st2 ->
    board_run icao (flight :: rest) st (r :: records) res st2
| board_drop flight rest st st1 records res st2 :
    process_flight flight icao st = (Ok None, st1) ->
    board_run icao rest st1 records res st2 ->
    board_run icao (flight :: rest) st records res st2
| board_abort flight rest st e st1 :
    process_flight flight icao st = (Raise e, st1) ->
    board_run icao (flight :: rest) st [] (Raise e) st1.

(** One airport: its board cannot be fetched and it gives no record; or
    the board is fetched and run to its end, and the pause follows; or
    the run of the board is cut short, and the records kept until then
    stay. *)
Inductive airport_run (hours : Z) (icao : string)
  : state -> list EnrichedFlightRecord -> state -> Prop :=
| airport_skipped st e st1 :
    fetch_board icao hours st = (Raise e, st1) ->
    airport_run hours icao st [] st1
| airport_processed st flights st1 records st2 :
    fetch_board icao hours st = (Ok flights, st1) ->
    board_run icao flights st1 records (Ok tt) st2 ->
    airport_run hours icao st records (snd (time_sleep 2 st2))
| airport_cut_short st flights st1 records e st2 :
    fetch_board icao hours st = (Ok flights, st1) ->
    board_run icao flights st1 records (Raise e) st2 ->
    airport_run hours icao st records st2.

(** The airports one after the other, each from the state the one
    before it left, with the records of each. *)
Inductive collection_run (hours : Z)
  : list string -> state -> list (list EnrichedFlightRecord) -> state -> Prop :=
| collection_done st :
    collection_run hours [] st [] st
| collection_next icao rest st records st1 groups st2 :
    airport_run hours icao st records st1 ->
    collection_run hours rest st1 groups st2 ->
    collection_run hours (icao :: rest) st (records :: groups) st2.

(** The flight's record is returned with the weather fields of a flight
    that has no observation. *)
Definition degraded_to_unknown (flight : value) (icao : string) (st : state) : Prop :=
  exists r (st' : state),
    process_flight flight icao st = (Ok (Some r), st')
    /\ route_weather r = VStr "Unknown"
    /\ route_weather_desc r = VStr "Unknown"
    /\ route_temp r = VNone
    /\ route_wind r = VNone.

End Runs.

(** ** The trainer object *)

(** [pd.read_excel(path, parse_dates=...)]: the frame, or the error it
    raises. *)
Class Pandas : Type := {
  read_excel : string -> result (list DataRow)
}.

(** [LabelEncoder]: the object that [fit_transform] leaves fitted. *)
Class Encoders : Type := {
  LabelEncoder : Type;
  (** [LabelEncoder()] after [fit_transform(column)]. *)
  fitted : list string -> LabelEncoder
}.

Module Predictor.

Section Methods.

Context `{Sklearn} `{Encoders} `{Pandas}.

(** What [joblib.dump] is given. *)
Inductive artifact : Type :=
| ClassifierBlob (c : Classifier)
| RegressorBlob (r : Regressor)
| EncodersBlob (e : list (string * LabelEncoder)).

(** The attributes of an [EnhancedDelayPredictor]; [self.clf] and
    [self.reg] do not exist before [train_models] sets them. *)
Record EnhancedDelayPredictor : Type := {
  self_df : list FrameRow;
  self_encoders : list (string * LabelEncoder);
  self_clf : option Classifier;
  self_reg : option Regressor
}.

(** [self.encoders] after the loop of [preprocess_data]. *)
Definition fit_encoders (df : list DataRow) : list (string * LabelEncoder) :=
  [("airline"%string, fitted (map cell_str (map row_airline df)));
   ("origin"%string, fitted (map cell_str (map row_origin df)));
   ("aircraft"%string, fitted (map cell_str (map row_aircraft df)));
   ("route_weather"%string, fitted (map cell_str (map row_route_weather df)))].

(** [__init__], on the frame that [pd.read_excel] returns. *)
Definition __init__ (df : list DataRow) : EnhancedDelayPredictor :=
  {| self_df := preprocess_data df;
     self_encoders := fit_encoders df;
     self_clf := None;
     self_reg := None |}.

(** [train_models] as a method: [self.clf] is assigned before the frame
    is filtered and split again, [self.reg] after. *)
Definition train_models (p : EnhancedDelayPredictor)
  : result unit * EnhancedDelayPredictor :=
  let X := map features (self_df p) in
  let y_class := map is_delayed (self_df p) in
  match train_test_split (length X) with
  | Raise e => (Raise e, p)
  | Ok (train, test) =>
      let p1 := {| self_df := self_df p;
                   self_encoders := self_encoders p;
                   self_clf := Some (clf_fit (iloc train X) (iloc train y_class));
                   self_reg := self_reg p |} in
      let delayed := filter (fun r => is_delayed r = 1) (self_df p) in
      let X_reg := map features delayed in
      let y_reg := map arrival_delay delayed in
      match train_test_split (length X_reg) with
      | Raise e => (Raise e, p1)
      | Ok (train', test') =>
          (Ok tt, {| self_df := self_df p1;
                     self_encoders := self_encoders p1;
                     self_clf := self_clf p1;
                     self_reg := Some (reg_fit (iloc train' X_reg) (iloc train' y_reg)) |})
      end
  end.

(** [save_models]: three [joblib.dump], each appended to the files
    written so far; reading an attribute that was never set raises. *)
Definition save_models (p : EnhancedDelayPredictor) (files : list (string * artifact))
  : result unit * list (string * artifact) :=
  match self_clf p with
  | None => (Raise AttributeError, files)
  | Some c =>
      let files1 := files ++ [("enhanced_delay_clf.joblib"%string, ClassifierBlob c)] in
      match self_reg p with
      | None => (Raise AttributeError, files1)
      | Some r =>
          (Ok tt,
           files1 ++ [("enhanced_delay_reg.joblib"%string, RegressorBlob r);
                      ("enhanced_encoders.joblib"%string, EncodersBlob (self_encoders p))])
      end
  end.

(** The script under [if __name__ == "__main__"]: the constructor reads
    the dataset at its default path, which may raise, before anything is
    trained.  [joblib.dump] is taken to succeed. *)
Definition main (files : list (string * artifact))
  : result unit * list (string * artifact) :=
  match read_excel "flight_data_enhanced.xlsx" with
  | Raise e => (Raise e, files)
  | Ok df =>
      let predictor := __init__ df in
      match train_models predictor with
      | (Raise e, _) => (Raise e, files)
      | (Ok _, predictor') => save_models predictor' files
      end
  end.

End Methods.

End Predictor.

(** ** More of the concrete world *)
Module Cases.

Definition encoders : Encoders :=
  {| LabelEncoder := list string; fitted := fun column => column |}.

(** A dataset file that holds the rows of [Demo.dataset]. *)
Definition pandas : Pandas := {| read_excel := fun _ => Ok Demo.dataset |}.

(** A stand-in for scikit-learn that refuses to split fewer than three
    samples. *)
Definition strict_sklearn : Sklearn :=
  {| Classifier := list Z;
     Regressor := list (option Q);
     fit_transform := fun column => map Z.of_nat (seq 0 (length column));
     cell_str := fun _ => "cell"%string;
     train_test_split := fun n =>
       match n with
       | O | S O | S (S O) => Raise ValueError
       | S (S (S m)) => Ok (seq 1 (S (S m)), [O])
       end;
     clf_fit := fun _ y => y;
     reg_fit := fun _ y => y;
     classify := fun _ _ => 0;
     regress := fun _ x => f_departure_delay x |}.

(** A frame with a single delayed flight. *)
Definition mostly_on_time : list DataRow :=
  [Demo.row 20; Demo.row 5; Demo.row 3; Demo.row 15].

(** A board entry without its identifier. *)
Definition anonymous_fields : list (string * value) :=
  [("operator"%string, VStr "AIC");
   ("estimatedarrivaltime"%string, VInt 3000);
   ("actualarrivaltime"%string, VInt 3600)].

(** A board entry with the identifier and the two arrival epochs only. *)
Definition bare_fields : list (string * value) :=
  [("ident"%string, VStr "AI101");
   ("estimatedarrivaltime"%string, VInt 3000);
   ("actualarrivaltime"%string, VInt 3600)].

(** A board entry whose actual arrival is not a time. *)
Definition unlanded_fields : list (string * value) :=
  [("ident"%string, VStr "AI101");
   ("estimatedarrivaltime"%string, VInt 3000);
   ("actualarrivaltime"%string, VNone)].

(** A world in which every request fails. *)
Definition offline : Platform :=
  {| world := unit;
     http_get := fun _ w => (Raise RequestError, w);
     clock := fun w => (1700019800000000, w);
     sleep := fun _ w => w;
     utcoffset := fun _ => 19800;
     timestamp := fun t => Ok ((t - 19800000000) # 1000000);
     py_repr := fun _ => "<repr>"%string;
     INDIAN_AIRPORTS := Demo.registry |}.

(** The document that the weather service sends for a bad key. *)
Definition error_body : value := VDict [("cod"%string, VInt 401)].

End Cases.

(** * Properties *)

(** ** The calendar *)

Example isoformat_epoch : isoformat 0 = "1970-01-01"%string.
Proof. vm_compute. reflexivity. Qed.

Example isoformat_leap_day : isoformat 19782 = "2024-02-29"%string.
Proof. vm_compute. reflexivity. Qed.

Example isoformat_new_year_eve : isoformat 10956 = "1999-12-31"%string.
Proof. vm_compute. reflexivity. Qed.

Example round_half_even_ties :
  round_half_even (5 # 2) = 2 /\ round_half_even (7 # 2) = 4
  /\ round_half_even (-5 # 2) = -2 /\ round_half_even (13 # 5) = 3.
Proof. vm_compute. repeat split. Qed.

Lemma round_half_even_int (z : Z) :
  round_half_even (inject_Z z * 1000000) = z * 1000000.
Proof.
  unfold round_half_even. cbn [Qmult inject_Z Qnum Qden Pos.mul].
  rewrite Z.div_1_r, Z.mod_1_r. reflexivity.
Qed.

(** ** The steps of the collector *)

Section CollectorFacts.

Context `{Platform}.

Local Notation "'cache' st" := (weather_cache (self st)) (at level 10, st at level 9).

(** *** The weather lookup *)

Lemma get_route_weather_hit origin destination t (st : state) v :
  cache st !! cache_key origin destination t = Some v ->
  get_route_weather origin destination t st = (Ok v, st).
Proof. intros Hk. unfold get_route_weather. rewrite Hk. reflexivity. Qed.

Lemma get_route_weather_miss origin destination t (st : state) :
  cache st !! cache_key origin destination t = None ->
  get_route_weather origin destination t st =
  try_except (fetch_weather (cache_key origin destination t) origin destination t)
    (fun _ => ret VNone) st.
Proof. intros Hk. unfold get_route_weather. rewrite Hk. reflexivity. Qed.

(** What the [try] body does, case by case. *)
Lemma fetch_weather_unfold k origin destination t (st : state) :
  fetch_weather k origin destination t st =
  match _get_midpoint origin destination with
  | Raise e => (Raise e, st)
  | Ok m =>
      match timestamp t with
      | Raise e => (Raise e, st)
      | Ok ts =>
          let req := weather_request m m ts (self st) in
          match http_get req (env st) with
          | (Raise e, w) =>
              (Raise e, {| self := self st; env := w;
                           trace := trace st ++ [(req, Raise e)]; sink := sink st |})
          | (Ok v, w) =>
              (Ok v, {| self := set_weather_cache (<[k := v]> (cache st)) (self st);
                        env := w;
                        trace := trace st ++ [(req, Ok v)]; sink := sink st |})
          end
      end
  end.
Proof.
  unfold fetch_weather, bind, lift, ret, requests_get, cache_store.
  destruct (_get_midpoint origin destination) as [m|e]; [|reflexivity].
  destruct (timestamp t) as [ts|e]; [|reflexivity].
  cbn zeta. destruct (http_get _ (env st)) as [[v|e] w]; reflexivity.
Qed.

(** A failing [try] body leaves the collector as it was. *)
Lemma fetch_weather_raise k origin destination t (st st' : state) e :
  fetch_weather k origin destination t st = (Raise e, st') ->
  self st' = self st /\ sink st' = sink st.
Proof.
  rewrite fetch_weather_unfold.
  destruct (_get_midpoint origin destination) as [m|e1]; [|intros [= _ <-]; auto].
  destruct (timestamp t) as [ts|e1]; [|intros [= _ <-]; auto].
  cbn zeta. destruct (http_get _ (env st)) as [[v|e1] w]; [discriminate|].
  intros [= _ <-]. auto.
Qed.

(** A successful [try] body stores what it returns, and what it returns
    is the response just received. *)
Lemma fetch_weather_ok k origin destination t (st st' : state) v :
  fetch_weather k origin destination t st = (Ok v, st') ->
  cache st' = <[k := v]> (cache st)
  /\ sink st' = sink st
  /\ exists req, url req = WEATHER_URL /\ trace st' = trace st ++ [(req, Ok v)].
Proof.
  rewrite fetch_weather_unfold.
  destruct (_get_midpoint origin destination) as [m|e1]; [|discriminate].
  destruct (timestamp t) as [ts|e1]; [|discriminate].
  cbn zeta. destruct (http_get _ (env st)) as [[v1|e1] w]; [|discriminate].
  intros [= <- <-]. split; [reflexivity|]. split; [reflexivity|].
  eexists. split; [|reflexivity]. reflexivity.
Qed.

(** The lookup itself never raises. *)
Lemma get_route_weather_returns origin destination t (st : state) :
  exists v st', get_route_weather origin destination t st = (Ok v, st').
Proof.
  unfold get_route_weather.
  destruct (cache st !! cache_key origin destination t) as [v|]; [eauto|].
  unfold try_except.
  destruct (fetch_weather _ origin destination t st) as [[v|e] st']; [eauto|].
  unfold ret. eauto.
Qed.

(** *** Runs only move forward *)

Lemma evolves_refl (st : state) : evolves st st.
Proof. repeat split; auto. Qed.

Lemma evolves_trans (st1 st2 st3 : state) :
  evolves st1 st2 -> evolves st2 st3 -> evolves st1 st3.
Proof.
  intros (Hc & Ht & Hi & Hs) (Hc' & Ht' & Hi' & Hs'). repeat split.
  - etrans; eauto.
  - etrans; eauto.
  - auto.
  - congruence.
Qed.

(** A step that leaves the collector alone and extends the trace. *)
Lemma evolves_same_self (st st' : state) :
  self st' = self st -> trace st `prefix_of` trace st' -> sink st' = sink st ->
  evolves st st'.
Proof.
  intros Hs Ht Hsink. repeat split; auto.
  - rewrite Hs. reflexivity.
  - intros Hi k v Hk. rewrite Hs in Hk.
    destruct (Hi k v Hk) as (req & Hu & Hin).
    exists req. split; [exact Hu|].
    destruct Ht as [suffix ->]. apply in_or_app. auto.
Qed.

Lemma steady_ret {A} (a : A) : steady (ret a).
Proof. intros st. apply evolves_refl. Qed.

Lemma steady_lift {A} (r : result A) : steady (lift r).
Proof. intros st. apply evolves_refl. Qed.

Lemma steady_bind {A B} (m : M A) (k : A -> M B) :
  steady m -> (forall a, steady (k a)) -> steady (bind m k).
Proof.
  intros Hm Hk st. unfold bind. specialize (Hm st).
  destruct (m st) as [[a|e] st1]; cbn [snd] in *; [|exact Hm].
  eapply evolves_trans; [exact Hm|]. apply Hk.
Qed.

Lemma steady_try_except {A} (body : M A) (handler : exn -> M A) :
  steady body -> (forall e, steady (handler e)) -> steady (try_except body handler).
Proof.
  intros Hb Hh st. unfold try_except. specialize (Hb st).
  destruct (body st) as [[a|e] st1]; cbn [snd] in *; [exact Hb|].
  eapply evolves_trans; [exact Hb|]. apply Hh.
Qed.

Lemma steady_requests_get (req : state -> request) :
  steady (fun st => requests_get (req st) st).
Proof.
  intros st. unfold requests_get.
  destruct (http_get (req st) (env st)) as [r w]. cbn [snd].
  apply evolves_same_self; [reflexivity| |reflexivity]. cbn [trace].
  apply prefix_app_r. reflexivity.
Qed.

Lemma steady_now : steady now.
Proof.
  intros st. unfold now. destruct (clock (env st)) as [t w]. cbn [snd].
  apply evolves_same_self; reflexivity.
Qed.

Lemma steady_time_sleep seconds : steady (time_sleep seconds).
Proof. intros st. apply evolves_same_self; reflexivity. Qed.

Lemma steady_get_route_weather origin destination t :
  steady (get_route_weather origin destination t).
Proof.
  intros st. unfold get_route_weather.
  destruct (cache st !! cache_key origin destination t) as [v|] eqn:Hk;
    [apply evolves_refl|].
  unfold try_except.
  destruct (fetch_weather _ origin destination t st) as [[v|e] st1] eqn:Hf;
    cbn [snd ret].
  - apply fetch_weather_ok in Hf as (Hc & Hsink & req & Hu & Ht).
    split; [|split; [|split]]; [| | |exact Hsink].
    + rewrite Hc. apply insert_subseteq. exact Hk.
    + rewrite Ht. apply prefix_app_r. reflexivity.
    + intros Hi k' v' Hk'. rewrite Hc in Hk'. rewrite Ht.
      destruct (decide (cache_key origin destination t = k')) as [<-|Hne].
      * rewrite lookup_insert_eq in Hk'. injection Hk' as <-.
        exists req. split; [exact Hu|]. apply in_or_app. right. left. reflexivity.
      * rewrite lookup_insert_ne in Hk' by exact Hne.
        destruct (Hi k' v' Hk') as (req' & Hu' & Hin).
        exists req'. split; [exact Hu'|]. apply in_or_app. auto.
  - pose proof (fetch_weather_raise _ _ _ _ _ _ _ Hf) as [Hs Hsink].
    apply evolves_same_self; [exact Hs| |exact Hsink].
    rewrite fetch_weather_unfold in Hf.
    destruct (_get_midpoint origin destination) as [m|e1];
      [|injection Hf as _ <-; reflexivity].
    destruct (timestamp t) as [ts|e1]; [|injection Hf as _ <-; reflexivity].
    cbn zeta in Hf. destruct (http_get _ (env st)) as [[v1|e1] w]; [discriminate|].
    injection Hf as _ <-. cbn [trace]. apply prefix_app_r. reflexivity.
Qed.

Lemma steady_get_flight_details flight_id : steady (get_flight_details flight_id).
Proof.
  unfold get_flight_details. apply steady_try_except.
  - apply steady_bind; [|intros; apply steady_lift].
    apply (steady_requests_get (fun st => _)).
  - intros; apply steady_ret.
Qed.

Lemma steady_process_flight flight airport_icao :
  steady (process_flight flight airport_icao).
Proof.
  unfold process_flight. apply steady_try_except.
  - apply steady_bind; [apply steady_lift|intros ident].
    apply steady_bind; [apply steady_get_flight_details|intros details].
    destruct (negb (truthy details)); [apply steady_ret|].
    repeat (apply steady_bind;
            [first [apply steady_lift | apply steady_get_route_weather]|intros ?]).
    apply steady_ret.
  - intros e. apply steady_bind; [apply steady_lift|intros; apply steady_ret].
Qed.

Lemma for_flights_evolves flights icao all_flights (st : state) :
  evolves st (snd (for_flights flights icao all_flights st)).
Proof.
  revert all_flights st.
  induction flights as [|flight rest IH]; intros all_flights st; cbn [for_flights].
  - apply evolves_refl.
  - pose proof (steady_process_flight flight icao st) as Hp.
    destruct (process_flight flight icao st) as [[[processed|]|e] st1]; cbn [snd] in *.
    + eapply evolves_trans; [exact Hp|apply IH].
    + eapply evolves_trans; [exact Hp|apply IH].
    + exact Hp.
Qed.

Lemma steady_board_request icao hours : steady (board_request icao hours).
Proof.
  unfold board_request.
  repeat (apply steady_bind; [first [apply steady_now | apply steady_lift]|intros ?]).
  intros st. apply evolves_refl.
Qed.

Lemma steady_fetch_board icao hours : steady (fetch_board icao hours).
Proof.
  unfold fetch_board.
  apply steady_bind; [apply steady_board_request|intros req].
  apply steady_bind; [apply (steady_requests_get (fun _ => req))|intros response].
  repeat (apply steady_bind; [apply steady_lift|intros ?]).
  apply steady_lift.
Qed.

Lemma collect_airport_evolves icao hours all_flights (st : state) :
  evolves st (snd (collect_airport icao hours all_flights st)).
Proof.
  unfold collect_airport.
  pose proof (steady_fetch_board icao hours st) as Hb.
  destruct (fetch_board icao hours st) as [[flights|e] st1]; cbn [snd] in *;
    [|exact Hb].
  pose proof (for_flights_evolves flights icao all_flights st1) as Hf.
  destruct (for_flights flights icao all_flights st1) as [[acc [[]|e]] st2];
    cbn [snd] in *.
  - eapply evolves_trans; [exact Hb|]. eapply evolves_trans; [exact Hf|].
    apply (steady_time_sleep 2).
  - eapply evolves_trans; eauto.
Qed.

Lemma for_airports_evolves airports hours all_flights (st : state) :
  evolves st (snd (for_airports airports hours all_flights st)).
Proof.
  revert all_flights st.
  induction airports as [|icao rest IH]; intros all_flights st; cbn [for_airports].
  - apply evolves_refl.
  - pose proof (collect_airport_evolves icao hours all_flights st) as Hc.
    destruct (collect_airport icao hours all_flights st) as [acc st1]; cbn [snd] in *.
    eapply evolves_trans; [exact Hc|apply IH].
Qed.

Lemma collect_data_keeps_invariant hours filename (st : state) :
  cache_from_responses st ->
  cache_from_responses (snd (collect_data hours filename st)).
Proof.
  unfold collect_data.
  pose proof (for_airports_evolves (map fst INDIAN_AIRPORTS) hours [] st) as Ha.
  destruct (for_airports (map fst INDIAN_AIRPORTS) hours [] st) as [rows st1];
    cbn [snd] in *.
  destruct Ha as (Hc & Ht & Hi & _). auto.
Qed.

Lemma initial_cache_from_responses fk wk (w : world) :
  cache_from_responses (initial fk wk w).
Proof. intros k v Hk. cbn in Hk. rewrite lookup_empty in Hk. discriminate. Qed.

(** The key depends on the time only through its calendar day. *)
Lemma cache_key_same_day origin destination t1 t2 :
  date t1 = date t2 ->
  cache_key origin destination t1 = cache_key origin destination t2.
Proof. intros Hd. unfold cache_key. rewrite Hd. reflexivity. Qed.

(** After a lookup, the key is in the cache exactly when the lookup
    returned a cached or a freshly received value, and then it maps to
    the value returned. *)
Lemma get_route_weather_stored origin destination t (st st1 : state) r :
  get_route_weather origin destination t st = (r, st1) ->
  is_Some (cache st1 !! cache_key origin destination t) ->
  exists v, r = Ok v /\ cache st1 !! cache_key origin destination t = Some v.
Proof.
  unfold get_route_weather.
  destruct (cache st !! cache_key origin destination t) as [v|] eqn:Hk.
  - intros [= <- <-] _. eauto.
  - unfold try_except.
    destruct (fetch_weather _ origin destination t st) as [[v|e] st'] eqn:Hf.
    + intros [= <- <-] _. apply fetch_weather_ok in Hf as [Hc _].
      exists v. split; [reflexivity|]. rewrite Hc. apply lookup_insert_eq.
    + intros [= <- <-] [v Hv]. apply fetch_weather_raise in Hf as [Hs _].
      cbn [ret snd] in Hv. rewrite Hs in Hv. congruence.
Qed.

(** *** The weather cache *)

(** C4, as amended.  Take two lookups with the same origin, the same
    destination and times on the same calendar day, and let the first
    one find or store a value under the key (it did not fail).  Then the
    second one, made right after it or in any later state of the run,
    returns the value the first returned and leaves the state as it is:
    it sends no request. *)
Theorem same_day_lookup_hits origin destination t1 t2 (st st1 : state) r1 :
  date t1 = date t2 ->
  get_route_weather origin destination t1 st = (r1, st1) ->
  is_Some (cache st1 !! cache_key origin destination t1) ->
  second_lookup_hits origin destination t1 t2 st
  /\ forall st2 : state,
       cache st1 ⊆ cache st2 ->
       get_route_weather origin destination t2 st2 = (r1, st2).
Proof.
  intros Hday Hfirst Hstored.
  destruct (get_route_weather_stored _ _ _ _ _ _ Hfirst Hstored) as (v & -> & Hv).
  assert (Hlater : forall st2 : state, cache st1 ⊆ cache st2 ->
            get_route_weather origin destination t2 st2 = (Ok v, st2)).
  { intros st2 Hsub. apply get_route_weather_hit.
    rewrite <- (cache_key_same_day _ _ _ _ Hday).
    eapply lookup_weaken; eauto. }
  split; [|exact Hlater].
  unfold second_lookup_hits. rewrite Hfirst.
  rewrite (Hlater st1) by reflexivity. split; reflexivity.
Qed.

(** C9.  When the cache has no entry for the key and the weather request
    raises, the lookup returns [None] and the cache is what it was, so
    the key is still absent; a later lookup for the same origin,
    destination and day therefore sends a request again; and the lookup
    keeps the invariant that every cached value is the body of a
    response of the weather service, which holds in every state that
    [collect_data] reaches from a fresh collector. *)
Theorem failed_lookup_not_cached origin destination t1 (st : state) m ts e w :
  cache st !! cache_key origin destination t1 = None ->
  _get_midpoint origin destination = Ok m ->
  timestamp t1 = Ok ts ->
  http_get (weather_request m m ts (self st)) (env st) = (Raise e, w) ->
  exists st1 : state,
    get_route_weather origin destination t1 st = (Ok VNone, st1)
    /\ cache st1 = cache st
    /\ cache st1 !! cache_key origin destination t1 = None
    /\ (forall t2 ts2,
          date t2 = date t1 -> timestamp t2 = Ok ts2 ->
          let req := weather_request m m ts2 (self st1) in
          trace (snd (get_route_weather origin destination t2 st1))
          = trace st1 ++ [(req, fst (http_get req (env st1)))])
    /\ (cache_from_responses st -> cache_from_responses st1)
    /\ (forall fk wk w0 hours filename,
          cache_from_responses (snd (collect_data hours filename (initial fk wk w0)))).
Proof.
  intros Hmiss Hm Hts Hreq.
  pose proof (get_route_weather_miss _ _ _ _ Hmiss) as Hrun.
  unfold try_except in Hrun. rewrite fetch_weather_unfold, Hm, Hts in Hrun.
  cbn zeta in Hrun. rewrite Hreq in Hrun. cbn [ret] in Hrun.
  eexists. split; [exact Hrun|]. cbn [self trace env].
  split; [reflexivity|]. split; [exact Hmiss|]. split; [|split].
  - intros t2 ts2 Hday Hts2.
    rewrite get_route_weather_miss
      by (cbn [self]; rewrite (cache_key_same_day _ _ _ _ Hday); exact Hmiss).
    unfold try_except. rewrite fetch_weather_unfold, Hm, Hts2.
    cbn [self env trace].
    destruct (http_get _ w) as [[v|e2] w2]; reflexivity.
  - pose proof (steady_get_route_weather origin destination t1 st) as (_ & _ & Hi & _).
    rewrite Hrun in Hi. exact Hi.
  - intros fk wk w0 hours filename.
    apply collect_data_keeps_invariant, initial_cache_from_responses.
Qed.

(** *** One flight *)

Lemma get_flight_details_returns flight_id (st : state) :
  exists details st1, get_flight_details flight_id st = (Ok details, st1).
Proof.
  unfold get_flight_details, try_except, bind, lift, ret, requests_get.
  destruct (http_get _ (env st)) as [[response|e] w]; [|eauto].
  destruct (get_default response _ _); eauto.
Qed.

Lemma subscript_is_dict v k x : subscript v k = Ok x -> is_dict v = true.
Proof. destruct v; cbn; congruence. Qed.

Lemma get_of_dict v k : is_dict v = true -> exists x, get v k = Ok x.
Proof. destruct v; cbn; try discriminate. eauto. Qed.

(** The run of [process_flight] along the path on which every step
    before the record succeeds. *)
Lemma process_flight_run flight icao (st st1 st2 : state)
    ident details filed dep a arr from w :
  subscript flight "ident" = Ok ident ->
  get_flight_details ident st = (Ok details, st1) ->
  truthy details = true ->
  get_default details "filed_departuretime" (VInt 0) = Ok filed ->
  fromtimestamp filed = Ok dep ->
  subscript flight "actualarrivaltime" = Ok a ->
  fromtimestamp a = Ok arr ->
  get details "origin" = Ok from ->
  get_route_weather from (VStr icao) (midtime dep arr) st1 = (Ok w, st2) ->
  process_flight flight icao st =
  (match assemble flight icao details dep w with
   | Ok r => Ok (Some r)
   | Raise _ => Ok None
   end, st2).
Proof.
  intros Hid Hdet Htruthy Hfiled Hdep Ha Harr Hfrom Hw.
  unfold process_flight, try_except, bind, lift, ret.
  rewrite Hid, Hdet, Htruthy. cbn [negb].
  rewrite Hfiled, Hdep, Ha, Harr, Hfrom, Hw.
  destruct (assemble flight icao details dep w) as [r|e]; [reflexivity|].
  destruct (get_of_dict flight "ident" (subscript_is_dict _ _ _ Hid)) as [x ->].
  reflexivity.
Qed.

(** A flight whose detail lookup yields nothing is dropped. *)
Lemma process_flight_no_detail flight icao (st st1 : state) ident details :
  subscript flight "ident" = Ok ident ->
  get_flight_details ident st = (Ok details, st1) ->
  truthy details = false ->
  process_flight flight icao st = (Ok None, st1).
Proof.
  intros Hid Hdet Hfalsy.
  unfold process_flight, try_except, bind, lift, ret.
  rewrite Hid, Hdet, Hfalsy. reflexivity.
Qed.

(** Every record that [process_flight] returns was assembled from the
    board entry, the detail found for it and the weather looked up. *)
Lemma process_flight_some flight icao (st st' : state) r :
  process_flight flight icao st = (Ok (Some r), st') ->
  exists ident details st1 filed dep a arr from w,
    subscript flight "ident" = Ok ident
    /\ get_flight_details ident st = (Ok details, st1)
    /\ truthy details = true
    /\ get_default details "filed_departuretime" (VInt 0) = Ok filed
    /\ fromtimestamp filed = Ok dep
    /\ subscript flight "actualarrivaltime" = Ok a
    /\ fromtimestamp a = Ok arr
    /\ get details "origin" = Ok from
    /\ get_route_weather from (VStr icao) (midtime dep arr) st1 = (Ok w, st')
    /\ assemble flight icao details dep w = Ok r.
Proof.
  unfold process_flight, try_except, bind, lift, ret. intros Hrun.
  assert (Hhandler : forall (s : state),
            (match get flight "ident" with
             | Ok _ => (Ok None, s)
             | Raise e => (Raise e, s)
             end) <> (Ok (Some r), st')).
  { intros s. destruct (get flight "ident"); congruence. }
  destruct (subscript flight "ident") as [ident|e] eqn:Hid;
    [|exfalso; eapply Hhandler; exact Hrun].
  destruct (get_flight_details ident st) as [[details|e] st1] eqn:Hdet;
    [|exfalso; eapply Hhandler; exact Hrun].
  destruct (truthy details) eqn:Htruthy; cbn [negb] in Hrun; [|congruence].
  destruct (get_default details "filed_departuretime" (VInt 0)) as [filed|e] eqn:Hfiled;
    [|exfalso; eapply Hhandler; exact Hrun].
  destruct (fromtimestamp filed) as [dep|e] eqn:Hdep;
    [|exfalso; eapply Hhandler; exact Hrun].
  destruct (subscript flight "actualarrivaltime") as [a|e] eqn:Ha;
    [|exfalso; eapply Hhandler; exact Hrun].
  destruct (fromtimestamp a) as [arr|e] eqn:Harr;
    [|exfalso; eapply Hhandler; exact Hrun].
  destruct (get details "origin") as [from|e] eqn:Hfrom;
    [|exfalso; eapply Hhandler; exact Hrun].
  destruct (get_route_weather from (VStr icao) (midtime dep arr) st1)
    as [[w|e] st2] eqn:Hw; [|exfalso; eapply Hhandler; exact Hrun].
  destruct (assemble flight icao details dep w) as [r'|e] eqn:Hasm;
    [|exfalso; eapply Hhandler; exact Hrun].
  injection Hrun as <- <-.
  exists ident, details, st1, filed, dep, a, arr, from, w. repeat split; assumption.
Qed.

(** *** The record *)

Ltac next_field H x :=
  match type of H with
  | and_then ?r _ = Ok _ =>
      destruct r as [x|] eqn:?; cbn [and_then] in H |- *; [|discriminate H]
  end.

(** Where each field of an assembled record comes from. *)
Lemma assemble_fields flight icao details dep w r :
  assemble flight icao details dep w = Ok r ->
  exists a e qa qe actual_dep,
    subscript flight "actualarrivaltime" = Ok a
    /\ subscript flight "estimatedarrivaltime" = Ok e
    /\ as_number a = Some qa
    /\ as_number e = Some qe
    /\ delay_minutes r = ((qa - qe) / 60)%Q
    /\ fromtimestamp a = Ok (actual_arrival r)
    /\ fromtimestamp e = Ok (scheduled_arrival r)
    /\ scheduled_departure r = dep
    /\ get_default details "actualdeparturetime" (VInt 0) = Ok actual_dep
    /\ fromtimestamp actual_dep = Ok (actual_departure r)
    /\ destination r = icao
    /\ subscript flight "ident" = Ok (flight_number r)
    /\ get details "origin" = Ok (origin r)
    /\ weather_condition w "main" = Ok (route_weather r)
    /\ weather_condition w "description" = Ok (route_weather_desc r)
    /\ weather_reading w "temp" = Ok (route_temp r)
    /\ weather_reading w "wind_speed" = Ok (route_wind r).
Proof.
  unfold assemble. intros Hr.
  next_field Hr x_ident. next_field Hr x_airline. next_field Hr x_origin.
  next_field Hr x_actual_dep. next_field Hr x_departure.
  next_field Hr x_estimated. next_field Hr x_scheduled.
  next_field Hr x_actual. next_field Hr x_arrival.
  next_field Hr x_diff. next_field Hr x_aircraft.
  next_field Hr x_main. next_field Hr x_desc.
  next_field Hr x_temp. next_field Hr x_wind.
  injection Hr as <-. cbn.
  match goal with Hd : py_sub _ _ = Ok _ |- _ => unfold py_sub in Hd end.
  destruct (as_number x_actual) as [qa|] eqn:Hqa; [|discriminate].
  destruct (as_number x_estimated) as [qe|] eqn:Hqe; [|discriminate].
  exists x_actual, x_estimated, qa, qe, x_actual_dep.
  repeat split; try assumption; try reflexivity. congruence.
Qed.

(** The weather fields are the last to be evaluated: a record that
    assembles with some observation assembles without one as well, and
    differs in the weather fields only. *)
Lemma assemble_without_weather flight icao details dep w r :
  assemble flight icao details dep w = Ok r ->
  assemble flight icao details dep VNone = Ok (without_weather r).
Proof.
  unfold assemble. intros Hr.
  next_field Hr x_ident. next_field Hr x_airline. next_field Hr x_origin.
  next_field Hr x_actual_dep. next_field Hr x_departure.
  next_field Hr x_estimated. next_field Hr x_scheduled.
  next_field Hr x_actual. next_field Hr x_arrival.
  next_field Hr x_diff. next_field Hr x_aircraft.
  next_field Hr x_main. next_field Hr x_desc.
  next_field Hr x_temp. next_field Hr x_wind.
  injection Hr as <-. reflexivity.
Qed.

(** C1.  Every record that [process_flight] returns has as
    [delay_minutes] the actual arrival epoch of the board entry minus
    its estimated (scheduled) arrival epoch, divided by 60; these are
    the epochs its two arrival times were converted from.  For an entry
    with [actualarrivaltime = 3600] and [estimatedarrivaltime = 3000]
    the delay is 10. *)
Theorem process_flight_delay_minutes flight icao (st st' : state) r :
  process_flight flight icao st = (Ok (Some r), st') ->
  exists a e qa qe,
    subscript flight "actualarrivaltime" = Ok a
    /\ subscript flight "estimatedarrivaltime" = Ok e
    /\ as_number a = Some qa
    /\ as_number e = Some qe
    /\ delay_minutes r = ((qa - qe) / 60)%Q
    /\ fromtimestamp a = Ok (actual_arrival r)
    /\ fromtimestamp e = Ok (scheduled_arrival r)
    /\ (a = VInt 3600 -> e = VInt 3000 -> (delay_minutes r == 10)%Q).
Proof.
  intros Hrun.
  destruct (process_flight_some _ _ _ _ _ Hrun)
    as (ident & details & st1 & filed & dep & a0 & arr & from & w & Hsteps).
  destruct Hsteps as (_ & _ & _ & _ & _ & _ & _ & _ & _ & Hasm).
  destruct (assemble_fields _ _ _ _ _ _ Hasm)
    as (a & e & qa & qe & actual_dep & Ha & He & Hqa & Hqe & Hdelay & Harr & Hsched & _).
  exists a, e, qa, qe. repeat split; try assumption.
  intros -> ->. rewrite Hdelay.
  cbn in Hqa, Hqe. injection Hqa as <-. injection Hqe as <-. reflexivity.
Qed.

Lemma fromtimestamp_int z t :
  fromtimestamp (VInt z) = Ok t -> t = (z + utcoffset z) * 1000000.
Proof.
  unfold fromtimestamp. cbn [as_number]. rewrite round_half_even_int.
  rewrite Z.div_mul by discriminate.
  destruct (_ && _); [|discriminate]. intros [= <-]. lia.
Qed.

(** In terms of the two arrival times of the record: for whole-second
    epochs read under one and the same offset from UTC, [delay_minutes]
    is the time from scheduled to actual arrival, in minutes. *)
Lemma delay_minutes_between_arrivals flight icao (st st' : state) r a e :
  process_flight flight icao st = (Ok (Some r), st') ->
  subscript flight "actualarrivaltime" = Ok (VInt a) ->
  subscript flight "estimatedarrivaltime" = Ok (VInt e) ->
  utcoffset a = utcoffset e ->
  (delay_minutes r == minutes_between (scheduled_arrival r) (actual_arrival r))%Q.
Proof.
  intros Hrun Ha He Hoff.
  destruct (process_flight_some _ _ _ _ _ Hrun)
    as (? & ? & ? & ? & ? & ? & ? & ? & ? & Hsteps).
  destruct Hsteps as (_ & _ & _ & _ & _ & _ & _ & _ & _ & Hasm).
  destruct (assemble_fields _ _ _ _ _ _ Hasm)
    as (a' & e' & qa & qe & ? & Ha' & He' & Hqa & Hqe & Hdelay & Harr & Hsched & _).
  rewrite Ha in Ha'. injection Ha' as <-. rewrite He in He'. injection He' as <-.
  cbn in Hqa, Hqe. injection Hqa as <-. injection Hqe as <-.
  apply fromtimestamp_int in Harr, Hsched.
  rewrite Hdelay, Harr, Hsched, Hoff. unfold minutes_between.
  apply Qmult_comp; [|reflexivity].
  unfold Qeq, Qminus, Qplus, Qopp, inject_Z. cbn [Qnum Qden]. lia.
Qed.

(** When the weather service fails, the [try] body raises. *)
Lemma fetch_weather_fails k origin destination t (st : state) :
  (forall req, url req = WEATHER_URL -> exists e w, http_get req (env st) = (Raise e, w)) ->
  exists e st', fetch_weather k origin destination t st = (Raise e, st').
Proof.
  intros Hfail. rewrite fetch_weather_unfold.
  destruct (_get_midpoint origin destination) as [m|e]; [|eauto].
  destruct (timestamp t) as [ts|e]; [|eauto].
  cbn zeta.
  destruct (Hfail (weather_request m m ts (self st)) eq_refl) as (e & w & ->).
  eauto.
Qed.

(** C5, as amended.  Let [r0] be the record that a flight gives with
    some weather observation [w0], and let the weather service fail with
    an exception when the flight is processed (no entry is cached for its
    route and day, and every request to the service raises, be it in the
    exchange or in the decoding of the body).  Then the lookup returns
    [None] and
    leaves the collector as it was, the flight's record is still
    returned, equal to [r0] except that [route_weather] and
    [route_weather_desc] are ["Unknown"] and temperature and wind are
    [None], and the loop over the board goes on with the flights that
    follow. *)
Theorem weather_failure_degrades flight icao (st st1 : state)
    details filed dep w0 r0 rest all_flights :
  get_flight_details (flight_number r0) st = (Ok details, st1) ->
  truthy details = true ->
  get_default details "filed_departuretime" (VInt 0) = Ok filed ->
  fromtimestamp filed = Ok dep ->
  assemble flight icao details dep w0 = Ok r0 ->
  cache st1 !! cache_key (origin r0) (VStr icao) (midtime dep (actual_arrival r0)) = None ->
  (forall req, url req = WEATHER_URL ->
     exists e w, http_get req (env st1) = (Raise e, w)) ->
  exists st2 : state,
    get_route_weather (origin r0) (VStr icao) (midtime dep (actual_arrival r0)) st1
    = (Ok VNone, st2)
    /\ self st2 = self st1
    /\ process_flight flight icao st = (Ok (Some (without_weather r0)), st2)
    /\ route_weather (without_weather r0) = VStr "Unknown"
    /\ route_weather_desc (without_weather r0) = VStr "Unknown"
    /\ route_temp (without_weather r0) = VNone
    /\ route_wind (without_weather r0) = VNone
    /\ for_flights (flight :: rest) icao all_flights st
       = for_flights rest icao (all_flights ++ [without_weather r0]) st2
    /\ degraded_to_unknown flight icao st.
Proof.
  intros Hdet Htruthy Hfiled Hdep Hasm Hmiss Hfail.
  destruct (assemble_fields _ _ _ _ _ _ Hasm)
    as (a & e & qa & qe & actual_dep & Ha & _ & _ & _ & _ & Harr & _ & _ & _ & _ & _
        & Hid & Hfrom & _).
  destruct (fetch_weather_fails
              (cache_key (origin r0) (VStr icao) (midtime dep (actual_arrival r0)))
              (origin r0) (VStr icao) (midtime dep (actual_arrival r0)) st1 Hfail)
    as (e1 & st2 & Hfetch).
  assert (Hlookup :
    get_route_weather (origin r0) (VStr icao) (midtime dep (actual_arrival r0)) st1
    = (Ok VNone, st2)).
  { rewrite get_route_weather_miss by exact Hmiss.
    unfold try_except. rewrite Hfetch. reflexivity. }
  assert (Hrun : process_flight flight icao st = (Ok (Some (without_weather r0)), st2)).
  { rewrite (process_flight_run _ _ _ _ _ _ _ _ _ _ _ _ _
               Hid Hdet Htruthy Hfiled Hdep Ha Harr Hfrom Hlookup).
    rewrite (assemble_without_weather _ _ _ _ _ _ Hasm). reflexivity. }
  exists st2. split; [exact Hlookup|].
  split; [apply (fetch_weather_raise _ _ _ _ _ _ _ Hfetch)|].
  split; [exact Hrun|].
  repeat (split; [reflexivity|]).
  split; [cbn [for_flights]; rewrite Hrun; reflexivity|].
  exists (without_weather r0), st2. repeat split. exact Hrun.
Qed.

(** A board entry that is a JSON object never makes [process_flight]
    raise: it returns a record or [None]. *)
Lemma process_flight_dict_returns d icao (st : state) :
  exists o st', process_flight (VDict d) icao st = (Ok o, st').
Proof.
  unfold process_flight, try_except.
  match goal with |- context [match ?body st with _ => _ end] =>
    destruct (body st) as [[o|e] st'] end.
  - eauto.
  - cbn. eauto.
Qed.

(** So a board made of JSON objects is processed to its end. *)
Lemma for_flights_dicts flights icao all_flights (st : state) :
  Forall (fun flight => is_dict flight = true) flights ->
  exists all_flights' st', for_flights flights icao all_flights st = (all_flights', Ok tt, st').
Proof.
  intros Hall. revert all_flights st.
  induction Hall as [|flight rest Hd _ IH]; intros all_flights st; cbn [for_flights].
  - eauto.
  - destruct flight; try discriminate.
    destruct (process_flight_dict_returns d icao st) as ([r|] & st' & ->); apply IH.
Qed.

(** An entry that is not a JSON object makes the handler itself raise:
    its message evaluates [flight.get('ident')]. *)
Lemma process_flight_not_dict flight icao (st : state) :
  is_dict flight = false ->
  process_flight flight icao st = (Raise AttributeError, st).
Proof. destruct flight; cbn; congruence. Qed.

(** C6, at the input on which the code departs from it.  For a board
    entry that is JSON [null], the first statement of the [try] raises,
    the handler raises [AttributeError] while it formats its message,
    and [process_flight] propagates it instead of returning [None]; the
    loop over the board stops there and the entries after it are not
    processed. *)
Theorem process_flight_handler_raises icao (st : state) rest all_flights :
  process_flight VNone icao st = (Raise AttributeError, st)
  /\ for_flights (VNone :: rest) icao all_flights st
     = (all_flights, Raise AttributeError, st).
Proof.
  split.
  - apply process_flight_not_dict. reflexivity.
  - cbn [for_flights]. rewrite process_flight_not_dict by reflexivity. reflexivity.
Qed.

(** *** Missing departure times *)

Lemma fromtimestamp_zero :
  -86400 < utcoffset 0 < 86400 ->
  fromtimestamp (VInt 0) = Ok (utcoffset 0 * 1000000).
Proof.
  intros Hoff. unfold fromtimestamp. cbn [as_number].
  rewrite round_half_even_int.
  change (0 * 1000000) with 0. change (0 / 1000000) with 0. rewrite Z.add_0_l.
  assert (Hlo : (MIN_DATETIME <=? utcoffset 0 * 1000000) = true)
    by (apply Z.leb_le; unfold MIN_DATETIME; lia).
  assert (Hhi : (utcoffset 0 * 1000000 <=? MAX_DATETIME) = true)
    by (apply Z.leb_le; unfold MAX_DATETIME; lia).
  rewrite Hlo, Hhi. reflexivity.
Qed.

(** C10.  Let the detail found for a flight be a non-empty object, and
    let the local offset at the epoch be less than a day.  If the detail
    has no [filed_departuretime], the flight is not dropped: the weather
    is looked up at the middle between the local time of epoch 0 and the
    arrival, and the result is the record assembled with that lookup and
    with epoch 0 as scheduled departure.  If the detail has no
    [actualdeparturetime], every record returned has epoch 0 as actual
    departure. *)
Theorem missing_departure_defaults_to_epoch flight icao (st st1 : state)
    ident d a arr :
  subscript flight "ident" = Ok ident ->
  get_flight_details ident st = (Ok (VDict d), st1) ->
  truthy (VDict d) = true ->
  -86400 < utcoffset 0 < 86400 ->
  subscript flight "actualarrivaltime" = Ok a ->
  fromtimestamp a = Ok arr ->
  fromtimestamp (VInt 0) = Ok (utcoffset 0 * 1000000)
  /\ (assoc "filed_departuretime" d = None ->
      exists w (st2 : state),
        get_route_weather (default VNone (assoc "origin" d)) (VStr icao)
          (midtime (utcoffset 0 * 1000000) arr) st1 = (Ok w, st2)
        /\ process_flight flight icao st =
           (match assemble flight icao (VDict d) (utcoffset 0 * 1000000) w with
            | Ok r => Ok (Some r)
            | Raise _ => Ok None
            end, st2)
        /\ forall r,
             assemble flight icao (VDict d) (utcoffset 0 * 1000000) w = Ok r ->
             scheduled_departure r = utcoffset 0 * 1000000)
  /\ (assoc "actualdeparturetime" d = None ->
      forall r (st' : state),
        process_flight flight icao st = (Ok (Some r), st') ->
        actual_departure r = utcoffset 0 * 1000000).
Proof.
  intros Hid Hdet Htruthy Hoff Ha Harr.
  pose proof (fromtimestamp_zero Hoff) as Hzero.
  split; [exact Hzero|]. split.
  - intros Hfiled.
    destruct (get_route_weather_returns (default VNone (assoc "origin" d)) (VStr icao)
                (midtime (utcoffset 0 * 1000000) arr) st1) as (w & st2 & Hw).
    exists w, st2. split; [exact Hw|]. split.
    + apply (process_flight_run flight icao st st1 st2 ident (VDict d) (VInt 0)
               (utcoffset 0 * 1000000) a arr (default VNone (assoc "origin" d)) w);
        try assumption.
      * cbn. rewrite Hfiled. reflexivity.
      * cbn. destruct (assoc "origin" d); reflexivity.
    + intros r Hr.
      destruct (assemble_fields _ _ _ _ _ _ Hr)
        as (? & ? & ? & ? & ? & _ & _ & _ & _ & _ & _ & _ & Hsd & _).
      exact Hsd.
  - intros Hactual r st' Hrun.
    destruct (process_flight_some _ _ _ _ _ Hrun)
      as (ident' & details & st1' & filed & dep & a' & arr' & from & w & Hsteps).
    destruct Hsteps as (Hid' & Hdet' & _ & _ & _ & _ & _ & _ & _ & Hasm).
    rewrite Hid in Hid'. injection Hid' as <-.
    rewrite Hdet in Hdet'. injection Hdet' as <- <-.
    destruct (assemble_fields _ _ _ _ _ _ Hasm)
      as (? & ? & ? & ? & actual_dep & _ & _ & _ & _ & _ & _ & _ & _ & Hget & Hconv & _).
    cbn in Hget. rewrite Hactual in Hget. injection Hget as <-.
    rewrite Hzero in Hconv. injection Hconv as <-. reflexivity.
Qed.

(** *** The midpoint *)

Lemma find_in_registry (l : list (string * airport)) code c :
  NoDup (map fst l) -> In (code, c) l ->
  List.find (fun e => String.eqb code (fst e)) l = Some (code, c).
Proof.
  induction l as [|[k a] l IH]; cbn [map fst List.find In]; intros Hnd Hin; [tauto|].
  apply NoDup_cons in Hnd as [Hk Hnd].
  destruct (String.eqb_spec code k) as [->|Hne].
  - destruct Hin as [[= ->]|Hin]; [reflexivity|].
    exfalso. apply Hk. apply list_elem_of_In, in_map_iff. exists (k, c). auto.
  - destruct Hin as [[= <- _]|Hin]; [congruence|]. auto.
Qed.

Lemma find_not_in_registry (l : list (string * airport)) code :
  ~ In code (map fst l) ->
  List.find (fun e => String.eqb code (fst e)) l = None.
Proof.
  induction l as [|[k a] l IH]; cbn [map fst List.find In]; intros Hout; [reflexivity|].
  destruct (String.eqb_spec code k) as [->|Hne]; [tauto|]. apply IH. tauto.
Qed.

Lemma registry_get_located code c :
  NoDup (map fst INDIAN_AIRPORTS) -> located code c ->
  exists entry, registry_get (VStr code) = Ok entry
                /\ get_lat entry = lat c /\ get_lon entry = lon c.
Proof.
  intros Hnd [Hin|[Hout ->]]; cbn [registry_get].
  - rewrite (find_in_registry _ _ _ Hnd Hin). eexists. split; [reflexivity|]. auto.
  - rewrite (find_not_in_registry _ _ Hout). eexists. split; [reflexivity|]. auto.
Qed.

(** C8.  For two airport codes, [_get_midpoint] returns the arithmetic
    mean of their coordinates, where a code that the registry does not
    have stands for the coordinates (0, 0); when neither code is in the
    registry the midpoint is (0, 0). *)
Theorem midpoint_is_mean origin_icao dest_icao co cd :
  NoDup (map fst INDIAN_AIRPORTS) ->
  located origin_icao co ->
  located dest_icao cd ->
  exists m,
    _get_midpoint (VStr origin_icao) (VStr dest_icao) = Ok m
    /\ mid_lat m = ((lat co + lat cd) / 2)%Q
    /\ mid_lon m = ((lon co + lon cd) / 2)%Q
    /\ (~ In origin_icao (map fst INDIAN_AIRPORTS) ->
        (mid_lat m == (0 + lat cd) / 2)%Q /\ (mid_lon m == (0 + lon cd) / 2)%Q)
    /\ (~ In dest_icao (map fst INDIAN_AIRPORTS) ->
        (mid_lat m == (lat co + 0) / 2)%Q /\ (mid_lon m == (lon co + 0) / 2)%Q)
    /\ (~ In origin_icao (map fst INDIAN_AIRPORTS) ->
        ~ In dest_icao (map fst INDIAN_AIRPORTS) ->
        (mid_lat m == 0)%Q /\ (mid_lon m == 0)%Q).
Proof.
  intros Hnd Ho Hd.
  destruct (registry_get_located _ _ Hnd Ho) as (eo & Hgo & Hlato & Hlono).
  destruct (registry_get_located _ _ Hnd Hd) as (ed & Hgd & Hlatd & Hlond).
  unfold _get_midpoint. rewrite Hgo, Hgd. cbn [and_then].
  eexists. split; [reflexivity|]. cbn [mid_lat mid_lon].
  rewrite Hlato, Hlono, Hlatd, Hlond.
  assert (Hzo : ~ In origin_icao (map fst INDIAN_AIRPORTS) -> co = {| lat := 0; lon := 0 |}).
  { intros Hout. destruct Ho as [Hin|[_ ->]]; [|reflexivity].
    exfalso. apply Hout, in_map_iff. exists (origin_icao, co). auto. }
  assert (Hzd : ~ In dest_icao (map fst INDIAN_AIRPORTS) -> cd = {| lat := 0; lon := 0 |}).
  { intros Hout. destruct Hd as [Hin|[_ ->]]; [|reflexivity].
    exfalso. apply Hout, in_map_iff. exists (dest_icao, cd). auto. }
  split; [reflexivity|]. split; [reflexivity|]. split; [|split].
  - intros Hout. rewrite (Hzo Hout). cbn [lat lon]. split; reflexivity.
  - intros Hout. rewrite (Hzd Hout). cbn [lat lon]. split; reflexivity.
  - intros Hout1 Hout2. rewrite (Hzo Hout1), (Hzd Hout2). cbn [lat lon].
    split; reflexivity.
Qed.

(** *** The orchestrator *)

Lemma process_flight_produced flight icao (st st' : state) r :
  process_flight flight icao st = (Ok (Some r), st') -> produced_for icao r.
Proof.
  intros Hrun. split; [|eauto].
  destruct (process_flight_some _ _ _ _ _ Hrun)
    as (? & ? & ? & ? & ? & ? & ? & ? & ? & Hsteps).
  destruct Hsteps as (_ & _ & _ & _ & _ & _ & _ & _ & _ & Hasm).
  destruct (assemble_fields _ _ _ _ _ _ Hasm)
    as (? & ? & ? & ? & ? & _ & _ & _ & _ & _ & _ & _ & _ & _ & _ & Hdest & _).
  exact Hdest.
Qed.

(** The loop over a board only appends, and only records that
    [process_flight] returned. *)
Lemma for_flights_appends flights icao all_flights (st : state) all_flights' res st' :
  for_flights flights icao all_flights st = (all_flights', res, st') ->
  exists new, all_flights' = all_flights ++ new /\ Forall (produced_for icao) new.
Proof.
  revert all_flights st.
  induction flights as [|flight rest IH]; intros all_flights st; cbn [for_flights].
  - intros [= <- _ _]. exists []. rewrite app_nil_r. auto.
  - destruct (process_flight flight icao st) as [[[processed|]|e] st1] eqn:Hp.
    + intros Hrest. destruct (IH _ _ Hrest) as (new & -> & Hnew).
      exists (processed :: new). rewrite <- app_assoc. split; [reflexivity|].
      constructor; [|exact Hnew]. eapply process_flight_produced; eauto.
    + apply IH.
    + intros [= <- _ _]. exists []. rewrite app_nil_r. auto.
Qed.

Lemma collect_airport_appends icao hours all_flights (st : state) all_flights' st' :
  collect_airport icao hours all_flights st = (all_flights', st') ->
  exists new, all_flights' = all_flights ++ new /\ Forall (produced_for icao) new.
Proof.
  unfold collect_airport.
  destruct (fetch_board icao hours st) as [[flights|e] st1].
  - destruct (for_flights flights icao all_flights st1) as [[acc res] st2] eqn:Hf.
    apply for_flights_appends in Hf.
    destruct res; intros [= <- _]; exact Hf.
  - intros [= <- _]. exists []. rewrite app_nil_r. auto.
Qed.

Lemma for_airports_groups airports hours all_flights (st : state) rows st' :
  for_airports airports hours all_flights st = (rows, st') ->
  exists groups,
    rows = all_flights ++ concat groups
    /\ Forall2 (fun icao group => Forall (produced_for icao) group) airports groups.
Proof.
  revert all_flights st.
  induction airports as [|icao rest IH]; intros all_flights st; cbn [for_airports].
  - intros [= <- _]. exists []. cbn. rewrite app_nil_r. auto.
  - destruct (collect_airport icao hours all_flights st) as [acc st1] eqn:Hc.
    intros Hrest.
    destruct (collect_airport_appends _ _ _ _ _ _ Hc) as (new & -> & Hnew).
    destruct (IH _ _ Hrest) as (groups & -> & Hgroups).
    exists (new :: groups). cbn [concat]. rewrite app_assoc. auto.
Qed.

Lemma for_airports_app before after hours all_flights (st : state) :
  for_airports (before ++ after) hours all_flights st =
  let '(all_flights', st') := for_airports before hours all_flights st in
  for_airports after hours all_flights' st'.
Proof.
  revert all_flights st.
  induction before as [|icao rest IH]; intros all_flights st; cbn [for_airports app].
  - reflexivity.
  - destruct (collect_airport icao hours all_flights st) as [acc st1]. apply IH.
Qed.

Lemma for_flights_run flights icao all_flights (st : state) :
  exists records res st',
    for_flights flights icao all_flights st = (all_flights ++ records, res, st')
    /\ board_run icao flights st records res st'.
Proof.
  revert all_flights st.
  induction flights as [|flight rest IH]; intros all_flights st; cbn [for_flights].
  - exists [], (Ok tt), st. rewrite app_nil_r. split; [reflexivity|constructor].
  - destruct (process_flight flight icao st) as [[[r|]|e] st1] eqn:Hp.
    + destruct (IH (all_flights ++ [r]) st1) as (records & res & st' & -> & Hrun).
      exists (r :: records), res, st'. rewrite <- app_assoc.
      split; [reflexivity|]. eapply board_keep; eauto.
    + destruct (IH all_flights st1) as (records & res & st' & -> & Hrun).
      exists records, res, st'. split; [reflexivity|]. eapply board_drop; eauto.
    + exists [], (Raise e), st1. rewrite app_nil_r.
      split; [reflexivity|]. eapply board_abort; eauto.
Qed.

Lemma collect_airport_run icao hours all_flights (st : state) :
  exists records st',
    collect_airport icao hours all_flights st = (all_flights ++ records, st')
    /\ airport_run hours icao st records st'.
Proof.
  unfold collect_airport.
  destruct (fetch_board icao hours st) as [[flights|e] st1] eqn:Hb.
  - destruct (for_flights_run flights icao all_flights st1)
      as (records & res & st2 & -> & Hrun).
    destruct res as [[]|e].
    + exists records, (snd (time_sleep 2 st2)). split; [reflexivity|].
      eapply airport_processed; eauto.
    + exists records, st2. split; [reflexivity|]. eapply airport_cut_short; eauto.
  - exists [], st1. rewrite app_nil_r. split; [reflexivity|].
    eapply airport_skipped; eauto.
Qed.

Lemma for_airports_run airports hours all_flights (st : state) :
  exists groups st',
    for_airports airports hours all_flights st = (all_flights ++ concat groups, st')
    /\ collection_run hours airports st groups st'.
Proof.
  revert all_flights st.
  induction airports as [|icao rest IH]; intros all_flights st; cbn [for_airports].
  - exists [], st. cbn. rewrite app_nil_r. split; [reflexivity|constructor].
  - destruct (collect_airport_run icao hours all_flights st) as (records & st1 & -> & Hone).
    destruct (IH (all_flights ++ records) st1) as (groups & st2 & -> & Hrest).
    exists (records :: groups), st2. cbn [concat]. rewrite app_assoc.
    split; [reflexivity|]. econstructor; eauto.
Qed.

(** The three descriptions leave no choice: a run has one outcome. *)
Lemma board_run_unique icao flights (st : state) records res st' records' res' st'' :
  board_run icao flights st records res st' ->
  board_run icao flights st records' res' st'' ->
  records' = records /\ res' = res /\ st'' = st'.
Proof.
  intros Hrun. revert records' res' st''.
  induction Hrun as [st|flight rest st r st1 records res st2 Hp _ IH
                     |flight rest st st1 records res st2 Hp _ IH
                     |flight rest st e st1 Hp];
    intros records' res' st'' Hrun'; inversion Hrun'; subst;
    try (rewrite Hp in *; discriminate).
  - auto.
  - match goal with Hq : process_flight _ _ _ = (Ok (Some _), _) |- _ =>
      rewrite Hp in Hq; injection Hq as <- <- end.
    match goal with Hr : board_run _ rest _ _ _ _ |- _ =>
      destruct (IH _ _ _ Hr) as (-> & -> & ->) end.
    auto.
  - match goal with Hq : process_flight _ _ _ = (Ok None, _) |- _ =>
      rewrite Hp in Hq; injection Hq as <- end.
    match goal with Hr : board_run _ rest _ _ _ _ |- _ => apply (IH _ _ _ Hr) end.
  - match goal with Hq : process_flight _ _ _ = (Raise _, _) |- _ =>
      rewrite Hp in Hq; injection Hq as <- <- end.
    auto.
Qed.

Lemma airport_run_unique hours icao (st : state) records st' records' st'' :
  airport_run hours icao st records st' ->
  airport_run hours icao st records' st'' ->
  records' = records /\ st'' = st'.
Proof.
  intros Hrun Hrun'.
  destruct Hrun as [st e st1 Hb|st flights st1 records st2 Hb Hr
                    |st flights st1 records e st2 Hb Hr];
    inversion Hrun'; subst;
    match goal with Hb' : fetch_board _ _ _ = _ |- _ => rewrite Hb in Hb' end;
    try discriminate;
    try match goal with Hb' : (Ok _, _) = (Ok _, _) |- _ => injection Hb' as <- <- end;
    try match goal with Hb' : (Raise _, _) = (Raise _, _) |- _ =>
          injection Hb' as <- <- end;
    try match goal with Hr' : board_run _ _ _ _ _ _ |- _ =>
          destruct (board_run_unique _ _ _ _ _ _ _ _ _ Hr Hr') as (-> & Hres & ->) end;
    try discriminate; auto.
Qed.

Lemma collection_run_unique hours airports (st : state) groups st' groups' st'' :
  collection_run hours airports st groups st' ->
  collection_run hours airports st groups' st'' ->
  groups' = groups /\ st'' = st'.
Proof.
  intros Hrun. revert groups' st''.
  induction Hrun as [st|icao rest st records st1 groups st2 Hone _ IH];
    intros groups' st'' Hrun'; inversion Hrun'; subst; [auto|].
  match goal with Hone' : airport_run _ _ _ _ _ |- _ =>
    destruct (airport_run_unique _ _ _ _ _ _ _ Hone Hone') as (-> & ->) end.
  match goal with Hrest : collection_run _ rest _ _ _ |- _ =>
    destruct (IH _ _ Hrest) as (-> & ->) end.
  auto.
Qed.

Lemma board_run_produced icao flights (st : state) records res st' :
  board_run icao flights st records res st' -> Forall (produced_for icao) records.
Proof.
  induction 1; try constructor; auto.
  eapply process_flight_produced; eauto.
Qed.

Lemma collection_run_produced hours airports (st : state) groups st' :
  collection_run hours airports st groups st' ->
  Forall2 (fun icao group => Forall (produced_for icao) group) airports groups.
Proof.
  induction 1 as [st|icao rest st records st1 groups st2 Hone _ IH]; constructor; auto.
  destruct Hone; try constructor; eapply board_run_produced; eauto.
Qed.

(** C7.  [collect_data] returns, for every world: it runs the body of
    its loop for each airport of the registry in registry order, so the
    rows it returns are the concatenation of one group per airport, in
    that order, and the group of an airport is exactly the sequence of
    records that [process_flight] returned for the entries of its board,
    in the order of the board, none left out and none added
    ([collection_run], which has one outcome); it writes these rows to
    the sink; and when the fetch of one airport's board fails, that
    airport adds nothing, and the rows returned are those that the loop
    over the remaining airports gives from there. *)
Theorem collect_data_completes hours filename (st : state) :
  exists rows (st' : state) groups,
    collect_data hours filename st = (rows, st')
    /\ sink st' = sink st ++ [(filename, rows)]
    /\ rows = concat groups
    /\ Forall2 (fun icao group => Forall (produced_for icao) group)
         (map fst INDIAN_AIRPORTS) groups
    /\ (forall before icao after all_flights (st1 st2 : state) e,
         map fst INDIAN_AIRPORTS = before ++ icao :: after ->
         for_airports before hours [] st = (all_flights, st1) ->
         fetch_board icao hours st1 = (Raise e, st2) ->
         collect_airport icao hours all_flights st1 = (all_flights, st2)
         /\ exists st3 : state,
              for_airports after hours all_flights st2 = (rows, st3)
              /\ st' = to_excel filename rows st3)
    /\ exists st_end : state,
         collection_run hours (map fst INDIAN_AIRPORTS) st groups st_end
         /\ st' = to_excel filename (concat groups) st_end
         /\ forall groups' (st_end' : state),
              collection_run hours (map fst INDIAN_AIRPORTS) st groups' st_end' ->
              groups' = groups /\ st_end' = st_end.
Proof.
  destruct (for_airports_run (map fst INDIAN_AIRPORTS) hours [] st)
    as (groups & st1 & Hrun & Hdesc).
  cbn [app] in Hrun.
  exists (concat groups), (to_excel filename (concat groups) st1), groups.
  split; [unfold collect_data; rewrite Hrun; reflexivity|].
  split.
  { pose proof (for_airports_evolves (map fst INDIAN_AIRPORTS) hours [] st)
      as (_ & _ & _ & Hsink).
    rewrite Hrun in Hsink. cbn [snd] in Hsink. cbn [to_excel sink].
    rewrite Hsink. reflexivity. }
  split; [reflexivity|].
  split; [eapply collection_run_produced; exact Hdesc|].
  split.
  - intros before icao after all_flights st1' st2 e Hsplit Hbefore Hfail.
    assert (Hskip : collect_airport icao hours all_flights st1' = (all_flights, st2))
      by (unfold collect_airport; rewrite Hfail; reflexivity).
    split; [exact Hskip|].
    exists st1. split; [|reflexivity].
    rewrite Hsplit, for_airports_app, Hbefore in Hrun.
    cbn [for_airports] in Hrun. rewrite Hskip in Hrun. exact Hrun.
  - exists st1. split; [exact Hdesc|]. split; [reflexivity|].
    intros groups' st_end' Hdesc'.
    apply (collection_run_unique _ _ _ _ _ _ _ Hdesc Hdesc').
Qed.

End CollectorFacts.

(** ** Training and prediction *)

Section TrainingFacts.

Context `{Sklearn}.

Lemma lookup_map {A B} (f : A -> B) (l : list A) (i : nat) :
  map f l !! i = f <$> (l !! i).
Proof. revert i. induction l as [|x l IH]; intros [|i]; cbn; auto. Qed.

(** Selecting positions commutes with projecting a column. *)
Lemma iloc_map {A B} (f : A -> B) positions (frame : list A) :
  iloc positions (map f frame) = map f (iloc positions frame).
Proof.
  unfold iloc. induction positions as [|i positions IH]; cbn [omap list_omap]; [reflexivity|].
  rewrite lookup_map. destruct (frame !! i); cbn; rewrite IH; reflexivity.
Qed.

(** Every selected row is a row of the frame. *)
Lemma iloc_subset {A} positions (frame : list A) :
  Forall (fun x => x ∈ frame) (iloc positions frame).
Proof.
  unfold iloc. apply Forall_forall. intros x Hx.
  apply list_elem_of_omap in Hx as (i & _ & Hi).
  eapply list_elem_of_lookup_2; eauto.
Qed.

Lemma delayed_flag_one (delay : option Q) :
  delayed_flag delay = 1 <-> exists q, delay = Some q /\ (15 < q)%Q.
Proof.
  unfold delayed_flag. split.
  - destruct delay as [q|]; [|discriminate].
    destruct (Qle_bool q 15) eqn:Hle; [discriminate|]. intros _.
    exists q. split; [reflexivity|].
    apply Qnot_le_lt. intros Hq. apply Qle_bool_iff in Hq. congruence.
  - intros (q & -> & Hq).
    destruct (Qle_bool q 15) eqn:Hle; [|reflexivity].
    apply Qle_bool_iff in Hle. exfalso. eapply Qlt_not_le; eauto.
Qed.

(** The flag that [preprocess_data] gives each row. *)
Lemma preprocess_data_flag (df : list DataRow) r :
  r ∈ preprocess_data df -> is_delayed r = delayed_flag (arrival_delay r).
Proof.
  unfold preprocess_data. intros Hr.
  apply elem_of_lookup_imap in Hr as (i & raw & -> & _). reflexivity.
Qed.

(** C3.  In the frame that [preprocess_data] builds, [is_delayed] is 1
    exactly for the rows whose [arrival_delay] is greater than 15.  When
    [train_models] runs to its end on that frame, it fits the regressor
    once, and the features and targets it fits it on are those of rows
    of the frame that all have [is_delayed = 1], hence an arrival delay
    above 15: no row with a delay of 15 or less is among them. *)
Theorem regressor_fitted_on_delayed_only (raw : list DataRow) (out : Trained) :
  train_models (preprocess_data raw) = Ok out ->
  (forall r, r ∈ preprocess_data raw ->
     (is_delayed r = 1 <-> exists q, arrival_delay r = Some q /\ (15 < q)%Q))
  /\ exists X y rows,
       reg out = reg_fit X y
       /\ In (RegFit X y) (calls out)
       /\ (forall X' y', In (RegFit X' y') (calls out) -> X' = X /\ y' = y)
       /\ X = map features rows
       /\ y = map arrival_delay rows
       /\ Forall (fun r => r ∈ preprocess_data raw
                           /\ is_delayed r = 1
                           /\ (exists q, arrival_delay r = Some q /\ (15 < q)%Q)
                           /\ ~ (exists q, arrival_delay r = Some q /\ (q <= 15)%Q))
            rows.
Proof.
  intros Hrun.
  assert (Hflag : forall r, r ∈ preprocess_data raw ->
            (is_delayed r = 1 <-> exists q, arrival_delay r = Some q /\ (15 < q)%Q)).
  { intros r Hr. rewrite (preprocess_data_flag _ _ Hr). apply delayed_flag_one. }
  split; [exact Hflag|].
  unfold train_models in Hrun.
  destruct (train_test_split (length (map features (preprocess_data raw))))
    as [[train test]|e]; [|discriminate].
  destruct (train_test_split _) as [[train' test']|e]; [|discriminate].
  injection Hrun as <-. cbn [reg calls].
  set (delayed := filter (fun r => is_delayed r = 1) (preprocess_data raw)).
  exists (iloc train' (map features delayed)), (iloc train' (map arrival_delay delayed)),
    (iloc train' delayed).
  split; [reflexivity|]. split; [cbn; auto|]. split.
  { intros X' y' [Hc|[Hc|[Hc|[Hc|[]]]]]; try discriminate.
    injection Hc as <- <-. auto. }
  split; [apply iloc_map|]. split; [apply iloc_map|].
  eapply Forall_impl; [apply iloc_subset|].
  intros r Hr. cbn beta in Hr. apply list_elem_of_filter in Hr as [Hd Hin].
  pose proof (proj1 (Hflag r Hin) Hd) as (q & Hq & Hlt).
  repeat split; try assumption; [eauto|].
  intros (q' & Hq' & Hle). rewrite Hq in Hq'. injection Hq' as <-.
  eapply Qlt_not_le; eauto.
Qed.

(** C2.  On the combined [predict] of the design document: when the
    classifier does not predict delayed, the estimate is null and the
    regressor is not invoked; when it predicts delayed, the regressor is
    invoked once, on that vector, and its estimate is returned. *)
Theorem predict_gates_regressor (the_clf : Classifier) (the_reg : Regressor) x :
  (classify the_clf x <> 1 ->
     predicted_delayed (fst (predict the_clf the_reg x)) = false
     /\ estimated_delay_minutes (fst (predict the_clf the_reg x)) = None
     /\ snd (predict the_clf the_reg x) = [ClfPredict [x]]
     /\ regressor_invocations (snd (predict the_clf the_reg x)) = 0%nat)
  /\ (classify the_clf x = 1 ->
     predicted_delayed (fst (predict the_clf the_reg x)) = true
     /\ estimated_delay_minutes (fst (predict the_clf the_reg x))
        = Some (regress the_reg x)
     /\ snd (predict the_clf the_reg x) = [ClfPredict [x]; RegPredict [x]]
     /\ regressor_invocations (snd (predict the_clf the_reg x)) = 1%nat).
Proof.
  unfold predict. split; intros Hc.
  - destruct (Z.eqb_spec (classify the_clf x) 1) as [Heq|_]; [contradiction|].
    repeat split.
  - rewrite Hc. repeat split.
Qed.

End TrainingFacts.

(** ** Worked runs

    The statements above, applied in the concrete world [Demo]. *)

Lemma run_with_result {A B} (p : A * B) (a : A) : fst p = a -> p = (a, snd p).
Proof. intros <-. apply surjective_pairing. Qed.

Lemma process_flight_delay_minutes_witness :
  exists r st',
    @process_flight Demo.platform Demo.flight "VIDP"
      (Demo.start [Ok Demo.route_details; Ok Demo.weather]) = (Ok (Some r), st')
    /\ (delay_minutes r == 10)%Q.
Proof.
  assert (Hfst : exists r,
             fst (@process_flight Demo.platform Demo.flight "VIDP"
                    (Demo.start [Ok Demo.route_details; Ok Demo.weather])) = Ok (Some r))
    by (vm_compute; eauto).
  destruct Hfst as (r & Hfst). apply run_with_result in Hfst.
  exists r, (snd (@process_flight Demo.platform Demo.flight "VIDP"
                    (Demo.start [Ok Demo.route_details; Ok Demo.weather]))).
  split; [exact Hfst|].
  destruct (process_flight_delay_minutes _ _ _ _ _ Hfst)
    as (a & e & qa & qe & Ha & He & _ & _ & _ & _ & _ & Hten).
  apply Hten.
  - vm_compute in Ha. congruence.
  - vm_compute in He. congruence.
Defined.

Lemma predict_gates_regressor_witness :
  (estimated_delay_minutes
     (fst (@predict Demo.sklearn [] [] (Demo.vector 5))) = None
   /\ regressor_invocations (snd (@predict Demo.sklearn [] [] (Demo.vector 5))) = 0%nat)
  /\ (estimated_delay_minutes
        (fst (@predict Demo.sklearn [] [] (Demo.vector 40))) = Some (40 : Q)
      /\ regressor_invocations (snd (@predict Demo.sklearn [] [] (Demo.vector 40))) = 1%nat).
Proof.
  split.
  - destruct (proj1 (@predict_gates_regressor Demo.sklearn [] [] (Demo.vector 5)))
      as (_ & Hnone & _ & Hcount).
    + vm_compute. discriminate.
    + split; [exact Hnone|exact Hcount].
  - destruct (proj2 (@predict_gates_regressor Demo.sklearn [] [] (Demo.vector 40)))
      as (_ & Hsome & _ & Hcount).
    + reflexivity.
    + split; [exact Hsome|exact Hcount].
Defined.

Lemma regressor_fitted_on_delayed_only_witness :
  exists out,
    @train_models Demo.sklearn (@preprocess_data Demo.sklearn Demo.dataset) = Ok out
    /\ exists X y rows,
         In (RegFit X y) (calls out)
         /\ y = map arrival_delay rows
         /\ Forall (fun r => is_delayed r = 1) rows.
Proof.
  assert (Hrun : exists out,
             @train_models Demo.sklearn (@preprocess_data Demo.sklearn Demo.dataset) = Ok out)
    by (vm_compute; eauto).
  destruct Hrun as (out & Hrun). exists out. split; [exact Hrun|].
  destruct (@regressor_fitted_on_delayed_only Demo.sklearn _ _ Hrun)
    as (_ & X & y & rows & _ & Hin & _ & _ & Hy & Hrows).
  exists X, y, rows. split; [exact Hin|]. split; [exact Hy|].
  eapply Forall_impl; [exact Hrows|]. intros r (_ & Hd & _). exact Hd.
Defined.

(** C4 as stated fails when the first lookup fails: nothing is stored, so
    the second lookup for the same route and time sends a request of its
    own and returns what that request gives. *)
Lemma second_lookup_after_failure_misses :
  ~ @second_lookup_hits Demo.platform (VStr "VABB") (VStr "VIDP")
      23400000000 23400000000 (Demo.start [Raise RequestError; Ok Demo.weather]).
Proof.
  unfold second_lookup_hits. vm_compute. intros [Hsame _]. discriminate Hsame.
Qed.


Lemma same_day_lookup_hits_witness :
  date 23400000000 = date 30000000000
  /\ @second_lookup_hits Demo.platform (VStr "VABB") (VStr "VIDP")
       23400000000 30000000000 (Demo.start [Ok Demo.weather]).
Proof.
  split; [reflexivity|].
  refine (proj1 (@same_day_lookup_hits Demo.platform (VStr "VABB") (VStr "VIDP")
                   23400000000 30000000000 (Demo.start [Ok Demo.weather])
                   (snd (@get_route_weather Demo.platform (VStr "VABB") (VStr "VIDP")
                           23400000000 (Demo.start [Ok Demo.weather])))
                   (fst (@get_route_weather Demo.platform (VStr "VABB") (VStr "VIDP")
                           23400000000 (Demo.start [Ok Demo.weather])))
                   _ _ _)).
  - reflexivity.
  - apply surjective_pairing.
  - vm_compute. eauto.
Defined.

(** C5 as stated fails when the failure of the weather service arrives
    as a body that decodes, here the error document it sends for a bad
    key: the lookup returns that document, not [None], and the flight is
    dropped instead of being returned with ["Unknown"] weather. *)
Lemma weather_error_body_not_degraded :
  fst (@get_route_weather Demo.platform (VStr "VABB") (VStr "VIDP")
         (midtime 20800000000 23400000000)
         (snd (@get_flight_details Demo.platform (VStr "AI101")
                 (Demo.start [Ok Demo.route_details; Ok Cases.error_body]))))
  = Ok Cases.error_body
  /\ fst (@process_flight Demo.platform Demo.flight "VIDP"
            (Demo.start [Ok Demo.route_details; Ok Cases.error_body])) = Ok None
  /\ ~ @degraded_to_unknown Demo.platform Demo.flight "VIDP"
         (Demo.start [Ok Demo.route_details; Ok Cases.error_body]).
Proof.
  assert (Hdropped : fst (@process_flight Demo.platform Demo.flight "VIDP"
                            (Demo.start [Ok Demo.route_details; Ok Cases.error_body]))
                     = Ok None)
    by (vm_compute; reflexivity).
  split; [vm_compute; reflexivity|]. split; [exact Hdropped|].
  intros (r & st' & Hrun & _). rewrite Hrun in Hdropped. discriminate Hdropped.
Qed.

Lemma weather_failure_degrades_witness :
  exists st2,
    @process_flight Demo.platform Demo.flight "VIDP" (Demo.start [Ok Demo.route_details])
    = (Ok (Some (without_weather Demo.expected)), st2)
    /\ route_weather (without_weather Demo.expected) = VStr "Unknown"
    /\ @for_flights Demo.platform [Demo.flight; Demo.flight] "VIDP" []
         (Demo.start [Ok Demo.route_details])
       = @for_flights Demo.platform [Demo.flight] "VIDP" [without_weather Demo.expected] st2.
Proof.
  destruct (@weather_failure_degrades Demo.platform Demo.flight "VIDP"
              (Demo.start [Ok Demo.route_details])
              (snd (@get_flight_details Demo.platform (VStr "AI101")
                      (Demo.start [Ok Demo.route_details])))
              (VDict Demo.route_details_fields) (VInt 1000) 20800000000
              Demo.weather Demo.expected [Demo.flight] [])
    as (st2 & _ & _ & Hrun & Hunknown & _ & _ & _ & Hloop & _).
  - apply run_with_result. vm_compute. reflexivity.
  - reflexivity.
  - reflexivity.
  - vm_compute. reflexivity.
  - vm_compute. reflexivity.
  - vm_compute. reflexivity.
  - intros req _. exists RequestError, []. reflexivity.
  - exists st2. split; [exact Hrun|]. split; [exact Hunknown|exact Hloop].
Defined.

Lemma collect_data_completes_witness :
  exists rows st',
    @collect_data Demo.platform 24 "out.xlsx"
      (Demo.start [Raise RequestError; Ok (Demo.board [Demo.flight]);
                   Ok Demo.route_details; Ok Demo.weather]) = (rows, st')
    /\ sink st' = [("out.xlsx"%string, rows)]
    /\ length rows = 1%nat
    /\ fst (@collect_airport Demo.platform "VIDP" 24 []
              (Demo.start [Raise RequestError; Ok (Demo.board [Demo.flight]);
                           Ok Demo.route_details; Ok Demo.weather])) = [].
Proof.
  set (st := Demo.start [Raise RequestError; Ok (Demo.board [Demo.flight]);
                         Ok Demo.route_details; Ok Demo.weather]).
  destruct (@collect_data_completes Demo.platform 24 "out.xlsx" st)
    as (rows & st' & groups & Hrun & Hsink & _ & _ & Hskip & _).
  assert (Hfail : @fetch_board Demo.platform "VIDP" 24 st
                  = (Raise RequestError, snd (@fetch_board Demo.platform "VIDP" 24 st)))
    by (apply run_with_result; vm_compute; reflexivity).
  destruct (Hskip [] "VIDP" ["VABB"%string] [] st _ RequestError eq_refl eq_refl Hfail)
    as (Hairport & _).
  exists rows, st'. split; [exact Hrun|]. split; [exact Hsink|]. split.
  - change rows with (fst (rows, st')). rewrite <- Hrun. vm_compute. reflexivity.
  - rewrite Hairport. reflexivity.
Defined.

Lemma midpoint_is_mean_witness :
  exists m,
    @_get_midpoint Demo.platform (VStr "VIDP") (VStr "ZZZZ") = Ok m
    /\ (mid_lat m == 285665 # 20000)%Q
    /\ (mid_lon m == 771031 # 20000)%Q.
Proof.
  destruct (@midpoint_is_mean Demo.platform "VIDP" "ZZZZ"
              {| lat := 285665 # 10000; lon := 771031 # 10000 |}
              {| lat := 0; lon := 0 |})
    as (m & Hm & _ & _ & _ & Hdest & _).
  - apply (bool_decide_unpack _). vm_compute. exact I.
  - left. cbn. auto.
  - right. split; [|reflexivity]. cbn. intros [H|[H|[]]]; discriminate.
  - exists m. split; [exact Hm|].
    destruct Hdest as [Hlat Hlon].
    + cbn. intros [H|[H|[]]]; discriminate.
    + split; [rewrite Hlat|rewrite Hlon]; reflexivity.
Defined.

Lemma failed_lookup_not_cached_witness :
  exists st1,
    @get_route_weather Demo.platform (VStr "VABB") (VStr "VIDP") 23400000000
      (Demo.start [Raise RequestError; Ok Demo.weather]) = (Ok VNone, st1)
    /\ weather_cache (self st1) = ∅
    /\ length (trace st1) = 1%nat
    /\ length (trace (snd (@get_route_weather Demo.platform (VStr "VABB") (VStr "VIDP")
                             30000000000 st1))) = 2%nat.
Proof.
  destruct (@failed_lookup_not_cached Demo.platform (VStr "VABB") (VStr "VIDP")
              23400000000 (Demo.start [Raise RequestError; Ok Demo.weather])
              {| mid_lat := ((190887 # 10000) + (285665 # 10000)) / 2;
                 mid_lon := ((728679 # 10000) + (771031 # 10000)) / 2 |}
              (3600000000 # 1000000) RequestError [Ok Demo.weather])
    as (st1 & Hrun & Hcache & _ & Hagain & _).
  - reflexivity.
  - reflexivity.
  - reflexivity.
  - reflexivity.
  - exists st1. split; [exact Hrun|].
    assert (Hst1 : trace st1 = trace (snd (@get_route_weather Demo.platform (VStr "VABB")
              (VStr "VIDP") 23400000000 (Demo.start [Raise RequestError; Ok Demo.weather]))))
      by (rewrite Hrun; reflexivity).
    split; [rewrite Hcache; reflexivity|]. split.
    + rewrite Hst1. vm_compute. reflexivity.
    + rewrite (Hagain 30000000000 (10200000000 # 1000000)%Q eq_refl eq_refl).
      rewrite length_app, Hst1. vm_compute. reflexivity.
Defined.

Lemma missing_departure_defaults_to_epoch_witness :
  exists r st',
    @process_flight Demo.platform Demo.flight "VIDP"
      (Demo.start [Ok (Demo.details [("origin"%string, VStr "VABB")])]) = (Ok (Some r), st')
    /\ scheduled_departure r = 19800000000
    /\ actual_departure r = 19800000000.
Proof.
  assert (Hfst : exists r,
             fst (@process_flight Demo.platform Demo.flight "VIDP"
                    (Demo.start [Ok (Demo.details [("origin"%string, VStr "VABB")])]))
             = Ok (Some r))
    by (vm_compute; eauto).
  destruct Hfst as (r & Hfst). apply run_with_result in Hfst.
  destruct (@missing_departure_defaults_to_epoch Demo.platform Demo.flight "VIDP"
              (Demo.start [Ok (Demo.details [("origin"%string, VStr "VABB")])])
              (snd (@get_flight_details Demo.platform (VStr "AI101")
                      (Demo.start [Ok (Demo.details [("origin"%string, VStr "VABB")])])))
              (VStr "AI101") [("origin"%string, VStr "VABB")] (VInt 3600) 23400000000)
    as (_ & Hfiled & Hactual).
  - reflexivity.
  - apply run_with_result. vm_compute. reflexivity.
  - reflexivity.
  - cbn. lia.
  - reflexivity.
  - vm_compute. reflexivity.
  - destruct (Hfiled eq_refl) as (w & st2 & _ & Hrun & Hsd).
    rewrite Hfst in Hrun.
    destruct (@assemble Demo.platform Demo.flight "VIDP"
                (VDict [("origin"%string, VStr "VABB")])
                (@utcoffset Demo.platform 0 * 1000000) w) as [r'|e] eqn:Hasm;
      [|discriminate Hrun].
    injection Hrun as Hr _. subst r'.
    exists r, (snd (@process_flight Demo.platform Demo.flight "VIDP"
                      (Demo.start [Ok (Demo.details [("origin"%string, VStr "VABB")])]))).
    split; [exact Hfst|]. split.
    + exact (Hsd r eq_refl).
    + exact (Hactual eq_refl r _ Hfst).
Defined.

(** A board whose second entry is JSON [null]: the first flight is kept,
    the third is never processed. *)
Example null_entry_aborts_board :
  length (fst (@collect_airport Demo.platform "VIDP" 24 []
                 (Demo.start [Ok (Demo.board [Demo.flight; VNone; Demo.flight]);
                              Ok Demo.route_details; Ok Demo.weather;
                              Ok Demo.route_details]))) = 1%nat.
Proof. vm_compute. reflexivity. Qed.

(** * Further properties *)

(** ** The midpoint and the lookup *)

Lemma append_assoc (a b c : string) : (a +:+ b) +:+ c = a +:+ (b +:+ c).
Proof.
  induction a as [|x a IH]; [reflexivity|].
  change (String x ((a +:+ b) +:+ c) = String x (a +:+ (b +:+ c))).
  rewrite IH. reflexivity.
Qed.

Section CollectorExtras.

Context `{Platform}.

Local Notation "'cache' st" := (weather_cache (self st)) (at level 10, st at level 9).

(** [_get_midpoint] does not depend on the order of its arguments: it
    raises for both orders or for neither, and then gives the same
    point. *)
Theorem midpoint_symmetric a b :
  match _get_midpoint a b, _get_midpoint b a with
  | Ok m1, Ok m2 => (mid_lat m1 == mid_lat m2)%Q /\ (mid_lon m1 == mid_lon m2)%Q
  | Raise e1, Raise e2 => e1 = TypeError /\ e2 = TypeError
  | _, _ => False
  end.
Proof.
  unfold _get_midpoint.
  destruct (registry_get a) as [ea|e1] eqn:Ha, (registry_get b) as [eb|e2] eqn:Hb;
    cbn [and_then mid_lat mid_lon].
  - split; apply Qmult_comp; try reflexivity; apply Qplus_comm.
  - destruct b; cbn in Hb; try discriminate; injection Hb as <-; auto.
  - destruct a; cbn in Ha; try discriminate; injection Ha as <-; auto.
  - destruct a; cbn in Ha; try discriminate; injection Ha as <-.
    all: destruct b; cbn in Hb; try discriminate; injection Hb as <-; auto.
Qed.

(** The midpoint of an airport of the registry with itself is the
    airport. *)
Theorem midpoint_of_same_airport code c :
  NoDup (map fst INDIAN_AIRPORTS) ->
  In (code, c) INDIAN_AIRPORTS ->
  exists m,
    _get_midpoint (VStr code) (VStr code) = Ok m
    /\ (mid_lat m == lat c)%Q /\ (mid_lon m == lon c)%Q.
Proof.
  intros Hnd Hin.
  destruct (registry_get_located code c Hnd (or_introl Hin)) as (entry & Hget & Hlat & Hlon).
  unfold _get_midpoint. rewrite Hget. cbn [and_then].
  eexists. split; [reflexivity|]. cbn [mid_lat mid_lon]. rewrite Hlat, Hlon.
  split; field.
Qed.

Lemma midpoint_of_unhashable origin_icao dest_icao :
  hashable origin_icao && hashable dest_icao = false ->
  _get_midpoint origin_icao dest_icao = Raise TypeError.
Proof.
  unfold _get_midpoint.
  destruct origin_icao, dest_icao; cbn; try discriminate; reflexivity.
Qed.

(** [_get_midpoint] raises exactly when one of the codes is a list or a
    dict, and then it raises [TypeError]; every other code that is not a
    key of the registry, [None] among them, counts as (0, 0). *)
Theorem midpoint_raises_iff_unhashable origin_icao dest_icao :
  (hashable origin_icao && hashable dest_icao = true ->
     exists m, _get_midpoint origin_icao dest_icao = Ok m)
  /\ (hashable origin_icao && hashable dest_icao = false ->
     _get_midpoint origin_icao dest_icao = Raise TypeError)
  /\ (hashable origin_icao = true -> (forall s, origin_icao <> VStr s) ->
     forall d, exists entry,
       registry_get (VStr d) = Ok entry
       /\ _get_midpoint origin_icao (VStr d)
          = Ok {| mid_lat := (0 + get_lat entry) / 2; mid_lon := (0 + get_lon entry) / 2 |}).
Proof.
  split; [|split].
  - unfold _get_midpoint.
    destruct origin_icao, dest_icao; cbn; try discriminate; eauto.
  - apply midpoint_of_unhashable.
  - intros Hh Hns d. eexists. split; [reflexivity|].
    unfold _get_midpoint.
    destruct origin_icao; cbn; try discriminate; try reflexivity.
    exfalso. eapply Hns. reflexivity.
Qed.

(** A lookup whose origin is a list or a dict fails before any request
    is sent: unless the key is cached, it returns [None] and the state is
    what it was. *)
Theorem lookup_with_unhashable_origin origin destination t (st : state) :
  hashable origin = false ->
  cache st !! cache_key origin destination t = None ->
  get_route_weather origin destination t st = (Ok VNone, st).
Proof.
  intros Hh Hmiss. rewrite get_route_weather_miss by exact Hmiss.
  unfold try_except. rewrite fetch_weather_unfold.
  rewrite midpoint_of_unhashable by (rewrite Hh; reflexivity). reflexivity.
Qed.

(** The key is the three parts joined by dashes, so two routes share a
    key when the dash falls elsewhere: after a lookup for the route from
    [a-b] to [c] has found or stored a value, a lookup on the same day
    for the route from [a] to [b-c] returns that value and sends no
    request. *)
Theorem routes_share_cache_entry a b c t1 t2 (st st1 : state) r :
  date t1 = date t2 ->
  get_route_weather (VStr (a +:+ "-" +:+ b)) (VStr c) t1 st = (r, st1) ->
  is_Some (cache st1 !! cache_key (VStr (a +:+ "-" +:+ b)) (VStr c) t1) ->
  get_route_weather (VStr a) (VStr (b +:+ "-" +:+ c)) t2 st1 = (r, st1).
Proof.
  intros Hday Hfirst Hstored.
  destruct (get_route_weather_stored _ _ _ _ _ _ Hfirst Hstored) as (v & -> & Hv).
  apply get_route_weather_hit. rewrite <- Hv.
  unfold cache_key. cbn [py_str]. rewrite Hday.
  f_equal. rewrite !append_assoc. reflexivity.
Qed.

(** No step of a run evicts or replaces a cached value: what is cached
    under a key before [process_flight] or [collect_data] is cached under
    it afterwards. *)
Theorem cached_values_persist (st : state) k v :
  cache st !! k = Some v ->
  (forall flight icao, cache (snd (process_flight flight icao st)) !! k = Some v)
  /\ (forall hours filename, cache (snd (collect_data hours filename st)) !! k = Some v).
Proof.
  intros Hk. split.
  - intros flight icao.
    destruct (steady_process_flight flight icao st) as (Hsub & _).
    eapply lookup_weaken; eauto.
  - intros hours filename. unfold collect_data.
    destruct (for_airports_evolves (map fst INDIAN_AIRPORTS) hours [] st) as (Hsub & _).
    destruct (for_airports (map fst INDIAN_AIRPORTS) hours [] st) as [rows st1].
    cbn [snd to_excel self] in *. eapply lookup_weaken; eauto.
Qed.

Lemma get_flight_details_unfold flight_id (st : state) :
  get_flight_details flight_id st
  = (Ok (details_of (fst (http_get (details_request flight_id (self st)) (env st)))),
     {| self := self st;
        env := snd (http_get (details_request flight_id (self st)) (env st));
        trace := trace st ++ [(details_request flight_id (self st),
                               fst (http_get (details_request flight_id (self st))
                                      (env st)))];
        sink := sink st |}).
Proof.
  unfold get_flight_details, try_except, bind, lift, ret, requests_get, details_request.
  destruct (http_get _ (env st)) as [[body|e] w]; cbn [fst snd details_of]; [|reflexivity].
  destruct body; reflexivity.
Qed.

(** [get_flight_details] never raises and sends exactly one request,
    whatever the outcome: it returns [None] when the request fails or the
    body is not an object, the empty dict when the body has no
    [FlightInfoStatusResult], and leaves the collector and the sink as
    they were. *)
Theorem get_flight_details_outcome flight_id (st : state) :
  let req := details_request flight_id (self st) in
  let r := fst (http_get req (env st)) in
  get_flight_details flight_id st
  = (Ok (details_of r),
     {| self := self st; env := snd (http_get req (env st));
        trace := trace st ++ [(req, r)]; sink := sink st |})
  /\ (forall e, r = Raise e -> details_of r = VNone)
  /\ (forall body, r = Ok body -> is_dict body = false -> details_of r = VNone)
  /\ (forall d, r = Ok (VDict d) -> assoc "FlightInfoStatusResult" d = None ->
        details_of r = VDict []).
Proof.
  cbn zeta. split; [|split; [|split]].
  - apply get_flight_details_unfold.
  - intros e ->. reflexivity.
  - intros body -> Hd. destruct body; try reflexivity. discriminate.
  - intros d -> Hd. cbn. rewrite Hd. reflexivity.
Qed.

(** *** The number of requests *)

Lemma sends_weaken {A} (n n' : nat) (m : M A) :
  (n <= n')%nat -> sends_at_most n m -> sends_at_most n' m.
Proof.
  intros Hle Hm st. destruct (Hm st) as (new & Ht & Hlen).
  exists new. split; [exact Ht|lia].
Qed.

Lemma sends_ret {A} (a : A) : sends_at_most 0 (ret a).
Proof. intros st. exists []. rewrite app_nil_r. auto. Qed.

Lemma sends_lift {A} (r : result A) : sends_at_most 0 (lift r).
Proof. intros st. exists []. rewrite app_nil_r. auto. Qed.

Lemma sends_bind {A B} (n1 n2 : nat) (m : M A) (k : A -> M B) :
  sends_at_most n1 m -> (forall a, sends_at_most n2 (k a)) ->
  sends_at_most (n1 + n2) (bind m k).
Proof.
  intros Hm Hk st. unfold bind. destruct (Hm st) as (new1 & Ht1 & Hlen1).
  destruct (m st) as [[a|e] st1]; cbn [snd] in *.
  - destruct (Hk a st1) as (new2 & Ht2 & Hlen2).
    exists (new1 ++ new2). rewrite Ht2, Ht1, app_assoc, length_app. split; [reflexivity|lia].
  - exists new1. split; [exact Ht1|lia].
Qed.

Lemma sends_try_except {A} (n1 n2 : nat) (body : M A) (handler : exn -> M A) :
  sends_at_most n1 body -> (forall e, sends_at_most n2 (handler e)) ->
  sends_at_most (n1 + n2) (try_except body handler).
Proof.
  intros Hb Hh st. unfold try_except. destruct (Hb st) as (new1 & Ht1 & Hlen1).
  destruct (body st) as [[a|e] st1]; cbn [snd] in *.
  - exists new1. split; [exact Ht1|lia].
  - destruct (Hh e st1) as (new2 & Ht2 & Hlen2).
    exists (new1 ++ new2). rewrite Ht2, Ht1, app_assoc, length_app. split; [reflexivity|lia].
Qed.

Lemma sends_get_flight_details flight_id : sends_at_most 1 (get_flight_details flight_id).
Proof.
  intros st. rewrite get_flight_details_unfold.
  eexists. split; [reflexivity|]. cbn. lia.
Qed.

Lemma sends_get_route_weather origin destination t :
  sends_at_most 1 (get_route_weather origin destination t).
Proof.
  intros st. unfold get_route_weather.
  destruct (cache st !! cache_key origin destination t) as [v|].
  { exists []. rewrite app_nil_r. cbn. split; [reflexivity|lia]. }
  unfold try_except. rewrite fetch_weather_unfold.
  destruct (_get_midpoint origin destination) as [m|e];
    [|exists []; rewrite app_nil_r; cbn; split; [reflexivity|lia]].
  destruct (timestamp t) as [ts|e];
    [|exists []; rewrite app_nil_r; cbn; split; [reflexivity|lia]].
  cbn zeta. destruct (http_get _ (env st)) as [[v|e] w];
    (eexists; split; [reflexivity|cbn; lia]).
Qed.

Lemma sends_process_flight flight icao : sends_at_most 2 (process_flight flight icao).
Proof.
  unfold process_flight.
  apply (sends_try_except 2 0).
  - apply (sends_bind 0 2); [apply sends_lift|intros ident].
    apply (sends_bind 1 1); [apply sends_get_flight_details|intros details].
    destruct (negb (truthy details)); [apply (sends_weaken 0); [lia|apply sends_ret]|].
    do 5 (apply (sends_bind 0 1); [apply sends_lift|intros ?]).
    apply (sends_bind 1 0); [apply sends_get_route_weather|intros w].
    apply (sends_bind 0 0); [apply sends_lift|intros; apply sends_ret].
  - intros e. apply (sends_bind 0 0); [apply sends_lift|intros; apply sends_ret].
Qed.

(** [process_flight] sends at most two requests, and the loop over a
    board of [n] entries at most [2 n]: a detail request and at most one
    weather request for each entry it reaches. *)
Theorem board_request_budget icao :
  (forall flight, sends_at_most 2 (process_flight flight icao))
  /\ (forall flights all_flights (st : state), exists new,
        trace (snd (for_flights flights icao all_flights st)) = trace st ++ new
        /\ (length new <= 2 * length flights)%nat).
Proof.
  split; [intros; apply sends_process_flight|].
  induction flights as [|flight rest IH]; intros all_flights st; cbn [for_flights].
  - exists []. rewrite app_nil_r. cbn. auto.
  - destruct (sends_process_flight flight icao st) as (new1 & Ht1 & Hlen1).
    destruct (process_flight flight icao st) as [[[processed|]|e] st1]; cbn [snd] in *.
    + destruct (IH (all_flights ++ [processed]) st1) as (new2 & Ht2 & Hlen2).
      exists (new1 ++ new2). rewrite Ht2, Ht1, app_assoc, length_app.
      split; [reflexivity|cbn [length]; lia].
    + destruct (IH all_flights st1) as (new2 & Ht2 & Hlen2).
      exists (new1 ++ new2). rewrite Ht2, Ht1, app_assoc, length_app.
      split; [reflexivity|cbn [length]; lia].
    + exists new1. split; [exact Ht1|cbn [length]; lia].
Qed.

(** *** Entries that are dropped *)

(** A board entry that is an object without [ident] is dropped before
    any request is sent; one whose identifier finds no detail (the
    request fails, or its body has no usable result) is dropped after
    that one request; and one whose [actualarrivaltime] is missing or is
    not a time is dropped after the detail request as well, without a
    weather lookup. *)
Theorem incomplete_entry_dropped d icao (st : state) :
  (assoc "ident" d = None -> process_flight (VDict d) icao st = (Ok None, st))
  /\ (forall ident,
        assoc "ident" d = Some ident ->
        let st1 := snd (get_flight_details ident st) in
        (truthy (details_of (fst (http_get (details_request ident (self st)) (env st))))
         = false ->
         process_flight (VDict d) icao st = (Ok None, st1))
        /\ (forall e,
              (let+ a := subscript (VDict d) "actualarrivaltime" in fromtimestamp a)
              = Raise e ->
              process_flight (VDict d) icao st = (Ok None, st1))).
Proof.
  split.
  - intros Hid. unfold process_flight, try_except, bind, lift, ret. cbn.
    rewrite Hid. reflexivity.
  - intros ident Hid st1.
    assert (Hsub : subscript (VDict d) "ident" = Ok ident) by (cbn; rewrite Hid; reflexivity).
    assert (Hdet : get_flight_details ident st
                   = (Ok (details_of (fst (http_get (details_request ident (self st))
                                             (env st)))), st1)).
    { subst st1. rewrite get_flight_details_unfold. reflexivity. }
    split.
    + intros Hfalsy. eapply process_flight_no_detail; eauto.
    + intros e Hbad.
      unfold process_flight, try_except, bind, lift, ret.
      rewrite Hsub, Hdet.
      assert (Hget : get (VDict d) "ident" = Ok ident) by (cbn; rewrite Hid; reflexivity).
      destruct (negb (truthy _)); [reflexivity|].
      destruct (get_default _ "filed_departuretime" _) as [filed|e1];
        [|rewrite Hget; reflexivity].
      destruct (fromtimestamp filed) as [dep|e1]; [|rewrite Hget; reflexivity].
      destruct (subscript (VDict d) "actualarrivaltime") as [a|e1];
        cbn [and_then] in Hbad; [|rewrite Hget; reflexivity].
      rewrite Hbad, Hget. reflexivity.
Qed.

Lemma assemble_needs_observation flight icao details dep w e :
  weather_condition w "main" = Raise e ->
  exists e', assemble flight icao details dep w = Raise e'.
Proof.
  intros Hbad. unfold assemble.
  repeat match goal with
         | |- exists e', and_then (weather_condition w "main") _ = Raise e' =>
             rewrite Hbad; cbn [and_then]; eauto
         | |- exists e', and_then ?r _ = Raise e' =>
             destruct r; cbn [and_then]; [|eauto]
         end.
Qed.

(** A body that decodes to a truthy value without the structure of an
    observation is not a failure of the lookup: it is returned (and kept
    in the cache), and the flight is dropped when the record reads
    [current.weather[0].main] from it. *)
Theorem malformed_observation_drops_flight flight icao (st st1 st2 : state)
    ident details filed dep a arr from w e :
  subscript flight "ident" = Ok ident ->
  get_flight_details ident st = (Ok details, st1) ->
  truthy details = true ->
  get_default details "filed_departuretime" (VInt 0) = Ok filed ->
  fromtimestamp filed = Ok dep ->
  subscript flight "actualarrivaltime" = Ok a ->
  fromtimestamp a = Ok arr ->
  get details "origin" = Ok from ->
  get_route_weather from (VStr icao) (midtime dep arr) st1 = (Ok w, st2) ->
  weather_condition w "main" = Raise e ->
  process_flight flight icao st = (Ok None, st2).
Proof.
  intros Hid Hdet Htruthy Hfiled Hdep Ha Harr Hfrom Hw Hbad.
  rewrite (process_flight_run _ _ _ _ _ _ _ _ _ _ _ _ _
             Hid Hdet Htruthy Hfiled Hdep Ha Harr Hfrom Hw).
  destruct (assemble_needs_observation flight icao details dep w e Hbad) as (e' & ->).
  reflexivity.
Qed.

Ltac read_field H x :=
  match type of H with
  | and_then ?r _ = Ok _ =>
      destruct r as [x|] eqn:?; cbn [and_then] in H; [|discriminate H]
  end.

(** Where the descriptive fields of a record come from: the identifier
    of the entry, its operator and aircraft type with ["Unknown"] for a
    missing one, the airport whose board is processed, and the origin of
    the detail with [None] for a missing one. *)
Theorem record_fields_and_defaults d icao (st st' : state) r :
  process_flight (VDict d) icao st = (Ok (Some r), st') ->
  assoc "ident" d = Some (flight_number r)
  /\ airline r = default (VStr "Unknown") (assoc "operator" d)
  /\ aircraft r = default (VStr "Unknown") (assoc "aircrafttype" d)
  /\ destination r = icao
  /\ exists details (st1 : state),
       get_flight_details (flight_number r) st = (Ok (VDict details), st1)
       /\ origin r = default VNone (assoc "origin" details).
Proof.
  intros Hrun.
  destruct (process_flight_some _ _ _ _ _ Hrun)
    as (ident & details & st1 & filed & dep & a & arr & from & w & Hsteps).
  destruct Hsteps as (Hid & Hdet & _ & Hfiled & _ & _ & _ & _ & _ & Hasm).
  unfold assemble in Hasm.
  read_field Hasm x_ident. read_field Hasm x_airline. read_field Hasm x_origin.
  read_field Hasm x_actual_dep. read_field Hasm x_departure.
  read_field Hasm x_estimated. read_field Hasm x_scheduled.
  read_field Hasm x_actual. read_field Hasm x_arrival.
  read_field Hasm x_diff. read_field Hasm x_aircraft.
  read_field Hasm x_main. read_field Hasm x_desc.
  read_field Hasm x_temp. read_field Hasm x_wind.
  injection Hasm as <-. cbn [flight_number airline aircraft destination origin].
  repeat match goal with
         | Hx : subscript (VDict d) _ = Ok _ |- _ => cbn in Hx
         | Hx : get_default (VDict d) _ _ = Ok _ |- _ => cbn in Hx; injection Hx as <-
         end.
  destruct (assoc "ident" d) as [i|] eqn:Hi; [|discriminate].
  match goal with Hx : Ok i = Ok x_ident |- _ => injection Hx as -> end.
  injection Hid as <-.
  repeat (split; [reflexivity|]).
  destruct details as [| | | | | |fields]; try discriminate.
  exists fields, st1. split; [exact Hdet|].
  match goal with Hx : get (VDict fields) "origin" = Ok x_origin |- _ =>
    cbn in Hx; injection Hx as <- end.
  reflexivity.
Qed.

(** *** The board of an airport *)

Lemma fetch_board_unfold icao hours (st : state) :
  fetch_board icao hours st
  = bind (board_request icao hours)
      (fun req => bind (requests_get req)
                    (fun response => lift (board_flights response))) st.
Proof.
  unfold fetch_board, board_flights, bind, lift.
  destruct (board_request icao hours st) as [[req|e] st1]; [|reflexivity].
  destruct (requests_get req st1) as [[response|e] st2]; [|reflexivity].
  destruct (get_default response _ _) as [r1|e]; cbn [and_then]; [|reflexivity].
  destruct (get_default r1 _ _) as [r2|e]; cbn [and_then]; [|reflexivity].
  destruct (get_default r2 _ _) as [r3|e]; cbn [and_then]; reflexivity.
Qed.

(** The flights of a board are read from the body of the response with
    defaults at each level: a body that is an object without
    [AirportBoardsResult], without [arrivals] in it, or without [flights]
    in that, gives no flights and no error; a body that is not an object
    raises [AttributeError], and a [flights] that is [null] raises
    [TypeError], either of which makes [collect_data] skip the airport. *)
Theorem board_flights_defaults icao hours :
  (forall st : state,
     fetch_board icao hours st
     = bind (board_request icao hours)
         (fun req => bind (requests_get req)
                       (fun response => lift (board_flights response))) st)
  /\ (forall d, assoc "AirportBoardsResult" d = None -> board_flights (VDict d) = Ok [])
  /\ (forall d d1,
        assoc "AirportBoardsResult" d = Some (VDict d1) ->
        assoc "arrivals" d1 = None ->
        board_flights (VDict d) = Ok [])
  /\ (forall d d1 d2,
        assoc "AirportBoardsResult" d = Some (VDict d1) ->
        assoc "arrivals" d1 = Some (VDict d2) ->
        (assoc "flights" d2 = None -> board_flights (VDict d) = Ok [])
        /\ (assoc "flights" d2 = Some VNone -> board_flights (VDict d) = Raise TypeError)
        /\ (forall l, assoc "flights" d2 = Some (VList l) -> board_flights (VDict d) = Ok l))
  /\ (forall body, is_dict body = false -> board_flights body = Raise AttributeError).
Proof.
  split; [|split; [|split; [|split]]].
  - intros st. apply fetch_board_unfold.
  - intros d Hd. unfold board_flights. cbn. rewrite Hd. reflexivity.
  - intros d d1 Hd Hd1. unfold board_flights. cbn. rewrite Hd. cbn. rewrite Hd1. reflexivity.
  - intros d d1 d2 Hd Hd1. unfold board_flights. cbn. rewrite Hd. cbn. rewrite Hd1. cbn.
    repeat split; [intros ->|intros ->|intros l ->]; reflexivity.
  - intros body Hb. destruct body; try discriminate; reflexivity.
Qed.

Lemma fetch_board_offline icao hours (st : state) :
  (forall req w, exists e w', http_get req w = (Raise e, w')) ->
  exists e st', fetch_board icao hours st = (Raise e, st')
                /\ self st' = self st /\ sink st' = sink st.
Proof.
  intros Hdown. rewrite fetch_board_unfold.
  assert (Hkeep : forall (s : state), self (snd (board_request icao hours s)) = self s
                                      /\ sink (snd (board_request icao hours s)) = sink s).
  { intros s. unfold board_request, bind, lift, ret, now.
    destruct (clock (env s)) as [t1 w1]. destruct (hours_ago t1 hours); [|auto].
    destruct (timestamp _); [|auto]. cbn [env].
    destruct (clock w1) as [t2 w2]. destruct (timestamp t2); auto. }
  unfold bind. specialize (Hkeep st).
  destruct (board_request icao hours st) as [[req|e] st1]; cbn [snd] in Hkeep; [|eauto].
  unfold requests_get.
  destruct (Hdown req (env st1)) as (e & w' & ->). cbn [self sink]. eauto.
Qed.

(** When every request fails, [collect_data] still returns: it returns
    no rows, caches nothing, and writes the empty dataset to the sink
    under the given name. *)
Theorem collect_data_offline hours filename (st : state) :
  (forall req w, exists e w', http_get req w = (Raise e, w')) ->
  fst (collect_data hours filename st) = []
  /\ sink (snd (collect_data hours filename st)) = sink st ++ [(filename, [])]
  /\ cache (snd (collect_data hours filename st)) = cache st.
Proof.
  intros Hdown.
  assert (Hloop : forall airports (s : state),
            exists s', for_airports airports hours [] s = ([], s')
                       /\ self s' = self s /\ sink s' = sink s).
  { induction airports as [|icao rest IH]; intros s; cbn [for_airports]; [eauto|].
    unfold collect_airport.
    destruct (fetch_board_offline icao hours s Hdown) as (e & s1 & -> & Hself & Hsink).
    destruct (IH s1) as (s2 & -> & Hself2 & Hsink2).
    exists s2. split; [reflexivity|]. split; congruence. }
  unfold collect_data.
  destruct (Hloop (map fst INDIAN_AIRPORTS) st) as (s' & -> & Hself & Hsink).
  cbn [fst snd to_excel sink self]. rewrite Hself, Hsink. auto.
Qed.

End CollectorExtras.

(** ** The frame and the trainer *)

Section TrainingExtras.

Context `{Sklearn}.

(** Every row of the frame has a flag that is 0 or 1, and 0 when the
    delay is missing; its departure hour is within the day and its
    departure day within the week. *)
Theorem frame_row_ranges (df : list DataRow) r :
  r ∈ preprocess_data df ->
  (is_delayed r = 0 \/ is_delayed r = 1)
  /\ (arrival_delay r = None -> is_delayed r = 0)
  /\ 0 <= f_departure_hour (features r) < 24
  /\ 0 <= f_departure_day (features r) < 7.
Proof.
  unfold preprocess_data. intros Hr.
  apply elem_of_lookup_imap in Hr as (i & raw & -> & _).
  cbn [is_delayed arrival_delay features f_departure_hour f_departure_day].
  split; [|split; [|split]].
  - unfold delayed_flag. destruct (row_delay_minutes raw) as [q|]; [|auto].
    destruct (Qle_bool q 15); auto.
  - intros ->. reflexivity.
  - unfold dt_hour.
    pose proof (Z.mod_pos_bound (row_scheduled_departure raw) 86400000000 eq_refl) as Hm.
    split; [apply Z.div_pos; lia|apply Z.div_lt_upper_bound; lia].
  - unfold dt_dayofweek. apply Z.mod_pos_bound. reflexivity.
Qed.

(** When [train_models] runs to its end, the classifier it leaves is the
    one fitted on features and labels drawn from the same rows of the
    frame, each label being the [is_delayed] of its row; and it is scored
    on rows of the frame as well. *)
Theorem classifier_fitted_on_labelled_rows (df : list FrameRow) (out : Trained) :
  train_models df = Ok out ->
  exists rows held_out,
    clf out = clf_fit (map features rows) (map is_delayed rows)
    /\ In (ClfFit (map features rows) (map is_delayed rows)) (calls out)
    /\ In (ClfPredict (map features held_out)) (calls out)
    /\ Forall (fun r => r ∈ df) rows
    /\ Forall (fun r => r ∈ df) held_out.
Proof.
  unfold train_models. intros Hrun.
  destruct (train_test_split (length (map features df))) as [[train test]|e];
    [|discriminate].
  destruct (train_test_split _) as [[train' test']|e]; [|discriminate].
  injection Hrun as <-. cbn [clf calls].
  exists (iloc train df), (iloc test df). rewrite <- !iloc_map.
  split; [reflexivity|]. split; [cbn; auto|]. split; [cbn; auto|].
  split; apply iloc_subset.
Qed.

(** The error that [train_models] prints for the regressor is measured
    on delayed rows only: every vector it asks the regressor to predict
    is that of a row with [is_delayed = 1]. *)
Theorem regressor_scored_on_delayed_only (df : list FrameRow) (out : Trained) X :
  train_models df = Ok out ->
  In (RegPredict X) (calls out) ->
  exists rows,
    X = map features rows
    /\ Forall (fun r => r ∈ df /\ is_delayed r = 1) rows.
Proof.
  unfold train_models. intros Hrun HX.
  destruct (train_test_split (length (map features df))) as [[train test]|e];
    [|discriminate].
  destruct (train_test_split _) as [[train' test']|e]; [|discriminate].
  injection Hrun as <-. cbn [calls] in HX.
  destruct HX as [Hc|[Hc|[Hc|[Hc|[]]]]]; try discriminate. injection Hc as <-.
  exists (iloc test' (filter (fun r => is_delayed r = 1) df)).
  split; [apply iloc_map|].
  eapply Forall_impl; [apply iloc_subset|].
  intros r Hr. cbn beta in Hr. apply list_elem_of_filter in Hr as [Hd Hin]. auto.
Qed.

End TrainingExtras.

Section PredictorExtras.

Context `{Sklearn} `{Encoders} `{Pandas}.

(** The method [train_models] sets on the object what the training
    computes: when the training runs to its end, [self.clf] and
    [self.reg] are its two estimators and nothing else changes; when it
    raises, the method raises the same error and [self.reg] is what it
    was. *)
Lemma method_sets_trained_estimators (p : Predictor.EnhancedDelayPredictor) :
  match train_models (Predictor.self_df p) with
  | Ok out =>
      Predictor.train_models p
      = (Ok tt, {| Predictor.self_df := Predictor.self_df p;
                   Predictor.self_encoders := Predictor.self_encoders p;
                   Predictor.self_clf := Some (clf out);
                   Predictor.self_reg := Some (reg out) |})
  | Raise e =>
      fst (Predictor.train_models p) = Raise e
      /\ Predictor.self_reg (snd (Predictor.train_models p)) = Predictor.self_reg p
  end.
Proof.
  unfold train_models, Predictor.train_models.
  destruct (train_test_split (length (map features (Predictor.self_df p))))
    as [[train test]|e]; [|auto].
  destruct (train_test_split _) as [[train' test']|e]; cbn; auto.
Qed.

(** When the script ends without error, the dataset was read, one
    training on the preprocessed dataset ran to its end, and the script
    has written, in this order, the classifier and the regressor of that
    training and the encoders fitted on that dataset: the three files
    are a matched set. *)
Theorem main_writes_matched_set files files' :
  Predictor.main files = (Ok tt, files') ->
  exists df out,
    read_excel "flight_data_enhanced.xlsx" = Ok df
    /\ train_models (preprocess_data df) = Ok out
    /\ files' = files ++ [("enhanced_delay_clf.joblib"%string,
                           Predictor.ClassifierBlob (clf out));
                          ("enhanced_delay_reg.joblib"%string,
                           Predictor.RegressorBlob (reg out));
                          ("enhanced_encoders.joblib"%string,
                           Predictor.EncodersBlob (Predictor.fit_encoders df))].
Proof.
  unfold Predictor.main. intros Hmain.
  destruct (read_excel "flight_data_enhanced.xlsx") as [df|e] eqn:Hread;
    [|discriminate].
  pose proof (method_sets_trained_estimators (Predictor.__init__ df)) as Hm.
  cbn [Predictor.__init__ Predictor.self_df Predictor.self_encoders] in Hm.
  destruct (train_models (preprocess_data df)) as [out|e] eqn:Htrain.
  - rewrite Hm in Hmain. cbn in Hmain. injection Hmain as <-.
    exists df, out. split; [reflexivity|]. split; [exact Htrain|].
    rewrite <- app_assoc. reflexivity.
  - destruct Hm as [Hfst _].
    destruct (Predictor.train_models (Predictor.__init__ df)) as [[[]|e'] p'];
      cbn in Hfst; discriminate.
Qed.

(** [save_models] on an object whose training did not run to its end:
    before any training it raises and writes nothing; after a training
    that raised in its second split, the classifier is set and the
    regressor is not, so it writes the classifier file and then raises. *)
Theorem save_models_without_regressor (p p' : Predictor.EnhancedDelayPredictor)
    files e train test :
  Predictor.self_clf p = None ->
  Predictor.self_reg p = None ->
  Predictor.save_models p files = (Raise AttributeError, files)
  /\ (Predictor.train_models p = (Raise e, p') ->
      train_test_split (length (Predictor.self_df p)) = Ok (train, test) ->
      Predictor.save_models p' files
      = (Raise AttributeError,
         files ++ [("enhanced_delay_clf.joblib"%string,
                    Predictor.ClassifierBlob
                      (clf_fit (iloc train (map features (Predictor.self_df p)))
                         (iloc train (map is_delayed (Predictor.self_df p)))))])).
Proof.
  intros Hclf Hreg. split.
  - unfold Predictor.save_models. rewrite Hclf. reflexivity.
  - unfold Predictor.train_models. rewrite length_map. intros Hrun Hsplit.
    rewrite Hsplit in Hrun.
    destruct (train_test_split _) as [[train' test']|e']; [discriminate|].
    injection Hrun as _ <-. unfold Predictor.save_models. cbn. rewrite Hreg.
    reflexivity.
Qed.

End PredictorExtras.

(** ** Further worked runs *)

Lemma midpoint_of_same_airport_witness :
  exists m,
    @_get_midpoint Demo.platform (VStr "VIDP") (VStr "VIDP") = Ok m
    /\ (mid_lat m == 285665 # 10000)%Q
    /\ (mid_lon m == 771031 # 10000)%Q.
Proof.
  apply (@midpoint_of_same_airport Demo.platform "VIDP"
           {| lat := 285665 # 10000; lon := 771031 # 10000 |}).
  - apply (bool_decide_unpack _). vm_compute. exact I.
  - cbn. auto.
Defined.

Lemma midpoint_raises_iff_unhashable_witness :
  @_get_midpoint Demo.platform (VList []) (VStr "VIDP") = Raise TypeError
  /\ (exists m, @_get_midpoint Demo.platform (VStr "VABB") (VStr "VIDP") = Ok m)
  /\ @_get_midpoint Demo.platform VNone (VStr "VIDP")
     = Ok {| mid_lat := (0 + (285665 # 10000)) / 2; mid_lon := (0 + (771031 # 10000)) / 2 |}.
Proof.
  split; [|split].
  - apply (proj1 (proj2 (@midpoint_raises_iff_unhashable Demo.platform
                           (VList []) (VStr "VIDP")))).
    reflexivity.
  - apply (proj1 (@midpoint_raises_iff_unhashable Demo.platform
                    (VStr "VABB") (VStr "VIDP"))).
    reflexivity.
  - assert (Hns : forall s, VNone <> VStr s) by (intros s; discriminate).
    destruct (proj2 (proj2 (@midpoint_raises_iff_unhashable Demo.platform
                              VNone (VStr "VIDP"))) eq_refl Hns "VIDP"%string)
      as (entry & Hentry & Hm).
    rewrite Hm. cbn in Hentry. injection Hentry as <-. reflexivity.
Defined.

Lemma lookup_with_unhashable_origin_witness :
  @get_route_weather Demo.platform (VList []) (VStr "VIDP") 23400000000
    (Demo.start [Ok Demo.weather])
  = (Ok VNone, Demo.start [Ok Demo.weather]).
Proof.
  apply (@lookup_with_unhashable_origin Demo.platform).
  - reflexivity.
  - reflexivity.
Defined.

Lemma routes_share_cache_entry_witness :
  exists st1,
    @get_route_weather Demo.platform (VStr "VA-BB") (VStr "VIDP") 23400000000
      (Demo.start [Ok Demo.weather]) = (Ok Demo.weather, st1)
    /\ @get_route_weather Demo.platform (VStr "VA") (VStr "BB-VIDP") 30000000000 st1
       = (Ok Demo.weather, st1).
Proof.
  assert (Hfirst : @get_route_weather Demo.platform (VStr ("VA" +:+ "-" +:+ "BB"))
                     (VStr "VIDP") 23400000000 (Demo.start [Ok Demo.weather])
                   = (Ok Demo.weather,
                      snd (@get_route_weather Demo.platform (VStr ("VA" +:+ "-" +:+ "BB"))
                             (VStr "VIDP") 23400000000 (Demo.start [Ok Demo.weather]))))
    by (apply run_with_result; vm_compute; reflexivity).
  eexists. split; [exact Hfirst|].
  apply (@routes_share_cache_entry Demo.platform "VA" "BB" "VIDP"
           23400000000 30000000000 _ _ _ eq_refl Hfirst).
  vm_compute. eauto.
Defined.

Lemma cached_values_persist_witness :
  weather_cache
    (self (snd (@collect_data Demo.platform 24 "out.xlsx"
                  (snd (@get_route_weather Demo.platform (VStr "VABB") (VStr "VIDP")
                          23400000000 (Demo.start [Ok Demo.weather]))))))
    !! "VABB-VIDP-1970-01-01"%string
  = Some Demo.weather.
Proof.
  apply (@cached_values_persist Demo.platform).
  vm_compute. reflexivity.
Defined.

Lemma get_flight_details_outcome_witness :
  fst (@get_flight_details Demo.platform (VStr "AI101") (Demo.start [Raise RequestError]))
  = Ok VNone
  /\ fst (@get_flight_details Demo.platform (VStr "AI101") (Demo.start [Ok (VDict [])]))
     = Ok (VDict []).
Proof.
  split.
  - destruct (@get_flight_details_outcome Demo.platform (VStr "AI101")
                (Demo.start [Raise RequestError])) as (Heq & Hraise & _).
    etransitivity; [exact (f_equal fst Heq)|].
    exact (f_equal Ok (Hraise RequestError eq_refl)).
  - destruct (@get_flight_details_outcome Demo.platform (VStr "AI101")
                (Demo.start [Ok (VDict [])])) as (Heq & _ & _ & Hempty).
    etransitivity; [exact (f_equal fst Heq)|].
    exact (f_equal Ok (Hempty [] eq_refl eq_refl)).
Defined.

Lemma incomplete_entry_dropped_witness :
  @process_flight Demo.platform (VDict Cases.anonymous_fields) "VIDP"
    (Demo.start [Ok Demo.route_details])
  = (Ok None, Demo.start [Ok Demo.route_details])
  /\ fst (@process_flight Demo.platform (VDict Cases.bare_fields) "VIDP" (Demo.start []))
     = Ok None
  /\ fst (@process_flight Demo.platform (VDict Cases.unlanded_fields) "VIDP"
            (Demo.start [Ok Demo.route_details; Ok Demo.weather]))
     = Ok None.
Proof.
  split; [|split].
  - apply (proj1 (@incomplete_entry_dropped Demo.platform Cases.anonymous_fields "VIDP"
                    (Demo.start [Ok Demo.route_details]))).
    reflexivity.
  - destruct (proj2 (@incomplete_entry_dropped Demo.platform Cases.bare_fields "VIDP"
                       (Demo.start [])) (VStr "AI101") eq_refl) as (Hnone & _).
    rewrite Hnone; reflexivity.
  - destruct (proj2 (@incomplete_entry_dropped Demo.platform Cases.unlanded_fields "VIDP"
                       (Demo.start [Ok Demo.route_details; Ok Demo.weather]))
                (VStr "AI101") eq_refl) as (_ & Hbad).
    rewrite (Hbad TypeError); reflexivity.
Defined.

Lemma malformed_observation_drops_flight_witness :
  fst (@process_flight Demo.platform Demo.flight "VIDP"
         (Demo.start [Ok Demo.route_details; Ok Cases.error_body]))
  = Ok None.
Proof.
  set (st := Demo.start [Ok Demo.route_details; Ok Cases.error_body]).
  set (st1 := snd (@get_flight_details Demo.platform (VStr "AI101") st)).
  rewrite (@malformed_observation_drops_flight Demo.platform Demo.flight "VIDP" st st1
             (snd (@get_route_weather Demo.platform (VStr "VABB") (VStr "VIDP")
                     (midtime 20800000000 23400000000) st1))
             (VStr "AI101") (VDict Demo.route_details_fields) (VInt 1000) 20800000000
             (VInt 3600) 23400000000 (VStr "VABB") Cases.error_body KeyError).
  - reflexivity.
  - reflexivity.
  - apply run_with_result. vm_compute. reflexivity.
  - reflexivity.
  - reflexivity.
  - vm_compute. reflexivity.
  - reflexivity.
  - vm_compute. reflexivity.
  - reflexivity.
  - apply run_with_result. vm_compute. reflexivity.
  - reflexivity.
Defined.

Lemma record_fields_and_defaults_witness :
  exists r st',
    @process_flight Demo.platform (VDict Cases.bare_fields) "VIDP"
      (Demo.start [Ok Demo.route_details; Ok Demo.weather]) = (Ok (Some r), st')
    /\ airline r = VStr "Unknown"
    /\ aircraft r = VStr "Unknown"
    /\ destination r = "VIDP"%string.
Proof.
  assert (Hfst : exists r,
             fst (@process_flight Demo.platform (VDict Cases.bare_fields) "VIDP"
                    (Demo.start [Ok Demo.route_details; Ok Demo.weather])) = Ok (Some r))
    by (vm_compute; eauto).
  destruct Hfst as (r & Hfst). apply run_with_result in Hfst.
  destruct (@record_fields_and_defaults Demo.platform _ _ _ _ _ Hfst)
    as (_ & Hairline & Haircraft & Hdest & _).
  eexists r, _. split; [exact Hfst|]. split; [exact Hairline|].
  split; [exact Haircraft|exact Hdest].
Defined.

Lemma board_flights_defaults_witness :
  board_flights (VDict []) = Ok []
  /\ board_flights (VList []) = Raise AttributeError
  /\ board_flights (Demo.board [Demo.flight]) = Ok [Demo.flight].
Proof.
  destruct (@board_flights_defaults Demo.platform "VIDP" 24)
    as (_ & Hfirst & _ & Hthird & Hbody).
  split; [|split].
  - apply Hfirst. reflexivity.
  - apply Hbody. reflexivity.
  - destruct (Hthird [("AirportBoardsResult"%string,
                       VDict [("arrivals"%string,
                               VDict [("flights"%string, VList [Demo.flight])])])]
                [("arrivals"%string, VDict [("flights"%string, VList [Demo.flight])])]
                [("flights"%string, VList [Demo.flight])] eq_refl eq_refl)
      as (_ & _ & Hlist).
    apply Hlist. reflexivity.
Defined.

Lemma collect_data_offline_witness :
  fst (@collect_data Cases.offline 24 "out.xlsx" (@initial Cases.offline "k1" "k2" tt)) = []
  /\ sink (snd (@collect_data Cases.offline 24 "out.xlsx"
                  (@initial Cases.offline "k1" "k2" tt)))
     = [("out.xlsx"%string, [])].
Proof.
  destruct (@collect_data_offline Cases.offline 24 "out.xlsx"
              (@initial Cases.offline "k1" "k2" tt)) as (Hrows & Hsink & _).
  - intros req w. exists RequestError, w. reflexivity.
  - split; [exact Hrows|exact Hsink].
Defined.

Lemma for_flights_dicts_witness :
  exists all_flights st',
    @for_flights Demo.platform [Demo.flight; VDict Cases.anonymous_fields] "VIDP" []
      (Demo.start [Ok Demo.route_details; Ok Demo.weather])
    = (all_flights, Ok tt, st').
Proof.
  apply (@for_flights_dicts Demo.platform).
  repeat constructor.
Defined.

Lemma frame_row_ranges_witness :
  exists r,
    r ∈ @preprocess_data Demo.sklearn Demo.dataset
    /\ (is_delayed r = 0 \/ is_delayed r = 1)
    /\ 0 <= f_departure_hour (features r) < 24.
Proof.
  assert (Hrow : exists r, @preprocess_data Demo.sklearn Demo.dataset !! 1%nat = Some r)
    by (vm_compute; eauto).
  destruct Hrow as (r & Hrow). apply list_elem_of_lookup_2 in Hrow.
  destruct (@frame_row_ranges Demo.sklearn Demo.dataset r Hrow) as (Hflag & _ & Hhour & _).
  exists r. split; [exact Hrow|]. split; [exact Hflag|exact Hhour].
Defined.

Lemma classifier_fitted_on_labelled_rows_witness :
  exists out rows,
    @train_models Demo.sklearn (@preprocess_data Demo.sklearn Demo.dataset) = Ok out
    /\ In (ClfFit (map features rows) (map is_delayed rows)) (calls out)
    /\ Forall (fun r => r ∈ @preprocess_data Demo.sklearn Demo.dataset) rows.
Proof.
  assert (Hrun : exists out,
             @train_models Demo.sklearn (@preprocess_data Demo.sklearn Demo.dataset) = Ok out)
    by (vm_compute; eauto).
  destruct Hrun as (out & Hrun).
  destruct (@classifier_fitted_on_labelled_rows Demo.sklearn _ _ Hrun)
    as (rows & held_out & _ & Hfit & _ & Hrows & _).
  exists out, rows. split; [exact Hrun|]. split; [exact Hfit|exact Hrows].
Defined.

Lemma regressor_scored_on_delayed_only_witness :
  exists out X rows,
    @train_models Demo.sklearn (@preprocess_data Demo.sklearn Demo.dataset) = Ok out
    /\ In (RegPredict X) (calls out)
    /\ X = map features rows
    /\ Forall (fun r => is_delayed r = 1) rows.
Proof.
  assert (Hrun : exists out X,
             @train_models Demo.sklearn (@preprocess_data Demo.sklearn Demo.dataset) = Ok out
             /\ In (RegPredict X) (calls out)).
  { vm_compute. eexists. eexists. split; [reflexivity|].
    right. right. right. left. reflexivity. }
  destruct Hrun as (out & X & Hrun & HX).
  destruct (@regressor_scored_on_delayed_only Demo.sklearn _ _ _ Hrun HX)
    as (rows & Hrows & Hdelayed).
  exists out, X, rows. split; [exact Hrun|]. split; [exact HX|]. split; [exact Hrows|].
  eapply Forall_impl; [exact Hdelayed|]. intros r [_ Hd]. exact Hd.
Defined.

Lemma save_models_without_regressor_witness :
  fst (@Predictor.save_models Cases.strict_sklearn Cases.encoders
         (@Predictor.__init__ Cases.strict_sklearn Cases.encoders Cases.mostly_on_time) [])
  = Raise AttributeError
  /\ exists blob,
       @Predictor.save_models Cases.strict_sklearn Cases.encoders
         (snd (@Predictor.train_models Cases.strict_sklearn Cases.encoders
                 (@Predictor.__init__ Cases.strict_sklearn Cases.encoders
                    Cases.mostly_on_time))) []
       = (Raise AttributeError, [("enhanced_delay_clf.joblib"%string, blob)]).
Proof.
  destruct (@save_models_without_regressor Cases.strict_sklearn Cases.encoders
              (@Predictor.__init__ Cases.strict_sklearn Cases.encoders Cases.mostly_on_time)
              (snd (@Predictor.train_models Cases.strict_sklearn Cases.encoders
                      (@Predictor.__init__ Cases.strict_sklearn Cases.encoders
                         Cases.mostly_on_time)))
              [] ValueError [1; 2; 3]%nat [0]%nat eq_refl eq_refl)
    as (Hfresh & Hpartial).
  split; [rewrite Hfresh; reflexivity|].
  eexists. apply Hpartial.
  - apply run_with_result. vm_compute. reflexivity.
  - vm_compute. reflexivity.
Defined.

Lemma delay_minutes_between_arrivals_witness :
  exists r st',
    @process_flight Demo.platform Demo.flight "VIDP"
      (Demo.start [Ok Demo.route_details; Ok Demo.weather]) = (Ok (Some r), st')
    /\ (delay_minutes r == minutes_between (scheduled_arrival r) (actual_arrival r))%Q.
Proof.
  assert (Hfst : exists r,
             fst (@process_flight Demo.platform Demo.flight "VIDP"
                    (Demo.start [Ok Demo.route_details; Ok Demo.weather])) = Ok (Some r))
    by (vm_compute; eauto).
  destruct Hfst as (r & Hfst). apply run_with_result in Hfst.
  eexists r, _. split; [exact Hfst|].
  apply (@delay_minutes_between_arrivals Demo.platform _ _ _ _ _ 3600 3000 Hfst);
    reflexivity.
Defined.

Lemma main_writes_matched_set_witness :
  exists files',
    @Predictor.main Demo.sklearn Cases.encoders Cases.pandas [] = (Ok tt, files')
    /\ map fst files' = ["enhanced_delay_clf.joblib"%string;
                         "enhanced_delay_reg.joblib"%string;
                         "enhanced_encoders.joblib"%string].
Proof.
  assert (Hrun : exists files',
             @Predictor.main Demo.sklearn Cases.encoders Cases.pandas [] = (Ok tt, files'))
    by (vm_compute; eauto).
  destruct Hrun as (files' & Hrun). exists files'. split; [exact Hrun|].
  destruct (@main_writes_matched_set Demo.sklearn Cases.encoders Cases.pandas _ _ Hrun)
    as (df & out & _ & _ & ->).
  reflexivity.
Defined.
